(** * Crowd Fund Backend: a shallow embedding of [main.py] and [schemas.py]

    The request handlers of [main.py] are embedded as functions over an
    explicit store, with Python exceptions as an error result.  Numbers are
    the ones Python uses: unbounded integers ([Z]) and binary64 floats
    (Rocq's primitive [float]).  Documents are loosely typed mappings from
    field names to values, as the document store returns them. *)

From Stdlib Require Import ZArith Floats Lia Ascii.
From stdpp Require Import base option list sorting strings pretty gmap.

Local Open Scope Z_scope.

(** ** Python values, exceptions and the builtins the handlers call *)

Module Py.

(** A value held by a stored document or produced by a handler.  [VDate]
    is a [datetime] (a point on the time line, in microseconds), [VOid] an
    identifier assigned by the store. *)
Inductive value : Type :=
  | VNone
  | VBool (b : bool)
  | VInt (n : Z)
  | VFloat (f : float)
  | VStr (s : string)
  | VDate (t : Z)
  | VOid (n : N).

(** A document: what [get_documents] returns for each record. *)
Abbreviation document := (gmap string value).

(** [d.get(k)] and [d.get(k, dflt)]. *)
Definition get (d : document) (k : string) : value := default VNone (d !! k).
Definition get_or (d : document) (k : string) (dflt : value) : value :=
  default dflt (d !! k).

Inductive exn : Type :=
  | HTTPException (status_code : Z) (detail : string)
  | RequestValidationError (fields : list string)
  | ValidationError
  | StoreError (msg : string)
  | TypeError
  | AttributeError
  | ValueError
  | OverflowError
  | ZeroDivisionError.

Inductive result (A : Type) : Type :=
  | Ok (a : A)
  | Raise (e : exn).
Arguments Ok {A} a.
Arguments Raise {A} e.

Definition bind {A B} (r : result A) (k : A -> result B) : result B :=
  match r with
  | Ok a => k a
  | Raise e => Raise e
  end.

Fixpoint mapM {A B} (f : A -> result B) (l : list A) : result (list B) :=
  match l with
  | [] => Ok []
  | x :: l' =>
      bind (f x) (fun y => bind (mapM f l') (fun ys => Ok (y :: ys)))
  end.

(** The parts of the runtime that are libraries of their own: [str()],
    the parser behind [float("...")], and the address check of
    [EmailStr], which answers with the normalised address. *)
Class Runtime : Type := {
  py_str : value -> string;
  float_of_string : string -> option float;
  validate_email : string -> option string
}.

(** *** Floats *)

(** Integer quotient of [a / b] rounded to nearest, ties to even
    ([0 <= a], [0 < b]). *)
Definition div_half_even (a b : Z) : Z :=
  let q := a / b in
  match 2 * (a mod b) ?= b with
  | Lt => q
  | Gt => q + 1
  | Eq => if Z.even q then q else q + 1
  end.

(** The binary64 float nearest to [num / den] ([0 <= num], [0 < den]),
    with the sign [neg]; [None] when it is out of range. *)
Definition float_of_ratio (neg : bool) (num den : Z) : option float :=
  if num =? 0 then Some (if neg then (-0)%float else 0%float)
  else
    let l := Z.log2 num - Z.log2 den in
    let above :=
      if 0 <=? l then den * 2 ^ l <=? num else den <=? num * 2 ^ (- l) in
    let fl := if above then l else l - 1 in
    let e := Z.max (fl - 52) (-1074) in
    let q :=
      if 0 <=? e then div_half_even num (den * 2 ^ e)
      else div_half_even (num * 2 ^ (- e)) den in
    if (0 <=? e) && (2 ^ 1024 <=? q * 2 ^ e) then None
    else
      let f := Z.ldexp (PrimFloat.of_uint63 (Uint63.of_Z q)) e in
      Some (if neg then (- f)%float else f).

(** [float(n)] for an integer. *)
Definition float_of_int (n : Z) : result float :=
  match float_of_ratio (n <? 0) (Z.abs n) 1 with
  | Some f => Ok f
  | None => Raise OverflowError
  end.

(** [float(v)]. *)
Definition py_float `{Runtime} (v : value) : result float :=
  match v with
  | VFloat f => Ok f
  | VInt n => float_of_int n
  | VBool b => Ok (if b then 1%float else 0%float)
  | VStr s =>
      match float_of_string s with
      | Some f => Ok f
      | None => Raise ValueError
      end
  | VNone | VDate _ | VOid _ => Raise TypeError
  end.

(** [round(x, 2)]: the decimal with two places nearest to the exact value
    of [x] (ties to even), then the float nearest to that decimal.
    Infinities, NaN and zeros round to themselves. *)
Definition py_round2 (x : float) : float :=
  match Prim2SF x with
  | S754_finite s m e =>
      let n :=
        if 0 <=? e then Z.pos m * 100 * 2 ^ e
        else div_half_even (Z.pos m * 100) (2 ^ (- e)) in
      default x (float_of_ratio s n 100)
  | _ => x
  end.

(** [sum(xs)] over floats: the start value is the integer [0], so the sum
    of nothing is an [int]; otherwise the terms are added left to right. *)
Definition py_sum (xs : list float) : value :=
  match xs with
  | [] => VInt 0
  | _ :: _ => VFloat (fold_left PrimFloat.add xs 0%float)
  end.

(** [a / b] with a float divisor. *)
Definition py_truediv `{Runtime} (a : value) (b : float) : result float :=
  bind (py_float a) (fun x =>
    if (b =? 0)%float then Raise ZeroDivisionError else Ok (x / b)%float).

(** [v - n] for an integer [n]. *)
Definition py_sub_int (v : value) (n : Z) : result value :=
  match v with
  | VInt m => Ok (VInt (m - n))
  | VBool b => Ok (VInt ((if b then 1 else 0) - n))
  | VFloat f => bind (float_of_int n) (fun c => Ok (VFloat (f - c)%float))
  | VNone | VStr _ | VDate _ | VOid _ => Raise TypeError
  end.

(** [max(0, v)]: [v] when [v > 0], else the integer [0]. *)
Definition py_max0 (v : value) : result value :=
  match v with
  | VInt m => Ok (VInt (if 0 <? m then m else 0))
  | VBool b => Ok (if b then VBool true else VInt 0)
  | VFloat f => Ok (if (0 <? f)%float then VFloat f else VInt 0)
  | VNone | VStr _ | VDate _ | VOid _ => Raise TypeError
  end.

(** [bool(v)]. *)
Definition py_bool (v : value) : bool :=
  match v with
  | VNone => false
  | VBool b => b
  | VInt n => negb (n =? 0)
  | VFloat f => negb (f =? 0)%float
  | VStr s => negb (String.eqb s "")
  | VDate _ | VOid _ => true
  end.

(** *** Ordering and [list.sort] *)

(** Exact comparison of an integer with a float. *)
Definition int_lt_float (n : Z) (f : float) : bool :=
  match Prim2SF f with
  | S754_nan => false
  | S754_infinity s => negb s
  | S754_zero _ => n <? 0
  | S754_finite s m e =>
      let v := if s then Z.neg m else Z.pos m in
      if 0 <=? e then n <? v * 2 ^ e else n * 2 ^ (- e) <? v
  end.

Definition float_lt_int (f : float) (n : Z) : bool :=
  match Prim2SF f with
  | S754_nan => false
  | S754_infinity s => s
  | S754_zero _ => 0 <? n
  | S754_finite s m e =>
      let v := if s then Z.neg m else Z.pos m in
      if 0 <=? e then v * 2 ^ e <? n else v <? n * 2 ^ (- e)
  end.

Definition string_lt (a b : string) : bool :=
  match String.compare a b with
  | Lt => true
  | _ => false
  end.

(** [a < b]; values of unrelated types (and [None] with anything) do not
    compare. *)
Definition py_lt (a b : value) : result bool :=
  let int_of (b : bool) : Z := if b then 1 else 0 in
  match a, b with
  | VDate s, VDate t => Ok (s <? t)
  | VStr s, VStr t => Ok (string_lt s t)
  | VOid m, VOid n => Ok (m <? n)%N
  | VInt m, VInt n => Ok (m <? n)
  | VInt m, VBool c => Ok (m <? int_of c)
  | VBool c, VInt n => Ok (int_of c <? n)
  | VBool c, VBool d => Ok (int_of c <? int_of d)
  | VFloat f, VFloat g => Ok (f <? g)%float
  | VInt m, VFloat g => Ok (int_lt_float m g)
  | VBool c, VFloat g => Ok (int_lt_float (int_of c) g)
  | VFloat f, VInt n => Ok (float_lt_int f n)
  | VFloat f, VBool d => Ok (float_lt_int f (int_of d))
  | _, _ => Raise TypeError
  end.

Section Sort.
Context {A : Type} (key : A -> value).

(** Place [x] in front of a list already in descending order: behind
    every element with a greater key, before the first one without. *)
Fixpoint insert_desc (x : A) (l : list A) : result (list A) :=
  match l with
  | [] => Ok [x]
  | y :: l' =>
      bind (py_lt (key x) (key y)) (fun lt =>
        if lt then bind (insert_desc x l') (fun r => Ok (y :: r))
        else Ok (x :: y :: l'))
  end.

(** [l.sort(key=key, reverse=True)]: the stable sort into descending
    order (elements with equal keys keep their order); a comparison
    that raises aborts the sort. *)
Fixpoint sort_desc (l : list A) : result (list A) :=
  match l with
  | [] => Ok []
  | x :: l' => bind (sort_desc l') (insert_desc x)
  end.
End Sort.

(** [l[:limit]]. *)
Definition slice_to {A} (limit : Z) (l : list A) : list A :=
  if 0 <=? limit then take (Z.to_nat limit) l
  else take (Z.to_nat (Z.of_nat (length l) + limit)) l.

(** [s[:n]] on a string. *)
Definition str_prefix (n : nat) (s : string) : string := String.substring 0 n s.

End Py.

Import Py.

(** ** [schemas.py]: the two record types and their constraints *)

Module Campaign.
Record t : Type := {
  title : string;
  description : string;
  goal_amount : float;
  max_supporters : option Z;
  deadline : option Z
}.
End Campaign.

Module Contribution.
Record t : Type := {
  name : string;
  email : string;
  amount : float;
  message : option string;
  is_public : bool
}.
End Contribution.

(** A pydantic model can be dumped to a document. *)
Class BaseModel (A : Type) : Type := { model_dump : A -> document }.

Definition dump_opt {A} (inj : A -> value) (o : option A) : value :=
  match o with
  | Some a => inj a
  | None => VNone
  end.

#[export] Instance Campaign_model : BaseModel Campaign.t := {|
  model_dump c :=
    <[ "title" := VStr (Campaign.title c) ]>
    (<[ "description" := VStr (Campaign.description c) ]>
    (<[ "goal_amount" := VFloat (Campaign.goal_amount c) ]>
    (<[ "max_supporters" := dump_opt VInt (Campaign.max_supporters c) ]>
    (<[ "deadline" := dump_opt VDate (Campaign.deadline c) ]> ∅))))
|}.

#[export] Instance Contribution_model : BaseModel Contribution.t := {|
  model_dump c :=
    <[ "name" := VStr (Contribution.name c) ]>
    (<[ "email" := VStr (Contribution.email c) ]>
    (<[ "amount" := VFloat (Contribution.amount c) ]>
    (<[ "message" := dump_opt VStr (Contribution.message c) ]>
    (<[ "is_public" := VBool (Contribution.is_public c) ]> ∅))))
|}.

(** A request body, decoded field by field.  A field is [None] when the
    body does not carry it with the declared type; for the two fields whose
    type is [Optional] the inner [None] is an explicit [null]. *)
Module CampaignBody.
Record t : Type := {
  title : option string;
  description : option string;
  goal_amount : option float;
  max_supporters : option (option Z);
  deadline : option Z
}.
End CampaignBody.

Module ContributionBody.
Record t : Type := {
  name : option string;
  email : option string;
  amount : option float;
  message : option string;
  is_public : option bool
}.
End ContributionBody.

Module Schemas.

(** [Field(..., gt=0)] on a float and on an integer. *)
Definition gt0 (x : float) : bool := (0 <? x)%float.
Definition gt0_int (n : Z) : bool := 0 <? n.

(** A required field ([Field(...)]) with its constraint: the field is
    reported when it is missing or the constraint fails. *)
Definition required {A} (field : string) (ok : A -> bool) (o : option A)
  : list string :=
  match o with
  | Some a => if ok a then [] else [field]
  | None => [field]
  end.

(** An optional field with a default: only a present value is checked. *)
Definition optional {A} (field : string) (ok : A -> bool) (o : option A)
  : list string :=
  match o with
  | Some a => if ok a then [] else [field]
  | None => []
  end.

Definition any {A} (_ : A) : bool := true.

Definition campaign_errors (b : CampaignBody.t) : list string :=
  required "title" any (CampaignBody.title b)
  ++ required "description" any (CampaignBody.description b)
  ++ required "goal_amount" gt0 (CampaignBody.goal_amount b)
  ++ optional "max_supporters"
       (fun o : option Z => from_option gt0_int true o)
       (CampaignBody.max_supporters b).

(** Validation of a body against [Campaign]: every failing field is
    reported, and a model is built only when none fails. *)
Definition validate_campaign (b : CampaignBody.t) : result Campaign.t :=
  match campaign_errors b,
        CampaignBody.title b, CampaignBody.description b,
        CampaignBody.goal_amount b with
  | [], Some t, Some d, Some g =>
      Ok {| Campaign.title := t;
            Campaign.description := d;
            Campaign.goal_amount := g;
            Campaign.max_supporters :=
              default (Some 100) (CampaignBody.max_supporters b);
            Campaign.deadline := CampaignBody.deadline b |}
  | errs, _, _, _ => Raise (RequestValidationError errs)
  end.

Definition contribution_errors `{Runtime} (b : ContributionBody.t)
  : list string :=
  required "name" any (ContributionBody.name b)
  ++ required "email" (fun e => bool_decide (is_Some (validate_email e)))
       (ContributionBody.email b)
  ++ required "amount" gt0 (ContributionBody.amount b).

Definition validate_contribution `{Runtime} (b : ContributionBody.t)
  : result Contribution.t :=
  match contribution_errors b,
        ContributionBody.name b,
        ContributionBody.email b ≫= validate_email,
        ContributionBody.amount b with
  | [], Some n, Some e, Some a =>
      Ok {| Contribution.name := n;
            Contribution.email := e;
            Contribution.amount := a;
            Contribution.message := ContributionBody.message b;
            Contribution.is_public :=
              default true (ContributionBody.is_public b) |}
  | errs, _, _, _ => Raise (RequestValidationError errs)
  end.

End Schemas.

(** ** The document store adapter ([database.py]) *)

Module Database.

(** Modelled from the spec: the contents of a store that answers.  The
    adapter module is not among the sources; the spec describes it as a
    generic persistence primitive scoped by collection name.  Each
    collection keeps its records in insertion order, and [next_oid] is the
    identifier the store assigns next. *)
Record database : Type := {
  contents : gmap string (list document);
  next_oid : N
}.

(** Modelled from the spec: the handle [db] that [main.py] imports.  It is
    missing ([NoDb], "uninitialized"), or it names a server that does not
    answer ([Down], "unreachable": every operation raises [err]), or one
    that does ([Up]).  [name] is the handle's [name] attribute, when it has
    one. *)
Inductive store : Type :=
  | NoDb
  | Down (name : option string) (err : string)
  | Up (name : option string) (d : database).

(** Modelled from the spec: the message of the connectivity error raised
    when there is no handle. *)
Definition not_available : string := "Database not available".

(** Modelled from the spec: the records of one collection, none when the
    collection was never written. *)
Definition collection (coll : string) (d : database) : list document :=
  default [] (contents d !! coll).

(** Modelled from the spec: [list(collection, filter)] of the missing
    adapter, "returns all matching records as loosely-typed mappings";
    every call in [main.py] passes the empty filter, which "returns all
    records in the collection".  An unreachable or uninitialized store
    fails with a connectivity error. *)
Definition get_documents (coll : string) (s : store)
  : result (list document) :=
  match s with
  | NoDb => Raise (StoreError not_available)
  | Down _ err => Raise (StoreError err)
  | Up _ d => Ok (collection coll d)
  end.

(** Modelled from the spec: the document a record is stored as, the
    record's own fields with [created_at], "set at creation", and the
    identifier "assigned by the store". *)
Definition new_document {A} `{BaseModel A} (now : Z) (oid : N) (data : A)
  : document :=
  <[ "_id" := VOid oid ]> (<[ "created_at" := VDate now ]> (model_dump data)).

(** Modelled from the spec: the durable write, the record appended to its
    collection and the next identifier advanced. *)
Definition insert_one (coll : string) (doc : document) (d : database)
  : database :=
  {| contents := <[ coll := collection coll d ++ [doc] ]> (contents d);
     next_oid := N.succ (next_oid d) |}.

(** Modelled from the spec: [create(collection, record) -> id] of the
    missing adapter, "inserts a record, returns its newly assigned
    identifier", with [created_at] "set at creation" and [id] "assigned by
    the store"; no uniqueness or dedup logic. *)
Definition create_document `{Runtime} {A} `{BaseModel A}
    (now : Z) (coll : string) (data : A) (s : store)
  : result string * store :=
  match s with
  | NoDb => (Raise (StoreError not_available), s)
  | Down _ err => (Raise (StoreError err), s)
  | Up nm d =>
      let oid := next_oid d in
      (Ok (py_str (VOid oid)),
       Up nm (insert_one coll (new_document now oid data) d))
  end.

(** [db.list_collection_names()] of the driver. *)
Definition list_collection_names (s : store) : result (list string) :=
  match s with
  | NoDb => Raise AttributeError
  | Down _ err => Raise (StoreError err)
  | Up _ d => Ok (fst <$> map_to_list (contents d))
  end.

(** [db.name], when the handle has the attribute. *)
Definition handle_name (s : store) : option string :=
  match s with
  | NoDb => None
  | Down nm _ | Up nm _ => nm
  end.

End Database.

Import Database.

(** ** [main.py]: the request handlers *)

Module Main.

(** A handler that may write: it runs on a store and leaves a store,
    also when it raises. *)
Definition handler (A : Type) : Type := store -> result A * store.

Definition ret {A} (a : A) : handler A := fun s => (Ok a, s).
Definition raise {A} (e : exn) : handler A := fun s => (Raise e, s).
Definition read {A} (f : store -> result A) : handler A :=
  fun s => (f s, s).
Definition hbind {A B} (m : handler A) (k : A -> handler B) : handler B :=
  fun s =>
    match m s with
    | (Ok a, s') => k a s'
    | (Raise e, s') => (Raise e, s')
    end.

Notation "'let!' x ':=' m 'in' k" := (hbind m (fun x => k))
  (at level 10, x name, m at level 100, k at level 200).

(** *** [GET /test] *)

Record response : Type := {
  backend : string;
  database : string;
  database_url : option string;
  database_name : option string;
  connection_status : string;
  collections : list string
}.

Definition set_database (v : string) (r : response) : response :=
  {| backend := backend r; database := v;
     database_url := database_url r; database_name := database_name r;
     connection_status := connection_status r;
     collections := collections r |}.
Definition set_database_url (v : string) (r : response) : response :=
  {| backend := backend r; database := database r;
     database_url := Some v; database_name := database_name r;
     connection_status := connection_status r;
     collections := collections r |}.
Definition set_database_name (v : string) (r : response) : response :=
  {| backend := backend r; database := database r;
     database_url := database_url r; database_name := Some v;
     connection_status := connection_status r;
     collections := collections r |}.
Definition set_connection_status (v : string) (r : response) : response :=
  {| backend := backend r; database := database r;
     database_url := database_url r; database_name := database_name r;
     connection_status := v;
     collections := collections r |}.
Definition set_collections (v : list string) (r : response) : response :=
  {| backend := backend r; database := database r;
     database_url := database_url r; database_name := database_name r;
     connection_status := connection_status r;
     collections := v |}.

(** A block of statements that updates the [response] dictionary in
    place: what it has written stays written when it raises. *)
Definition block : Type := response -> result unit * response.

Definition assign (f : response -> response) : block :=
  fun r => (Ok tt, f r).
Definition seq (a b : block) : block :=
  fun r =>
    match a r with
    | (Ok _, r') => b r'
    | (Raise e, r') => (Raise e, r')
    end.
Definition call {A} (c : result A) (k : A -> block) : block :=
  fun r =>
    match c with
    | Ok a => k a r
    | Raise e => (Raise e, r)
    end.

(** [try: body except Exception as e: handle(str(e))]. *)
Definition exn_str (e : exn) : string :=
  match e with
  | HTTPException _ detail => detail
  | StoreError msg => msg
  | _ => ""
  end.
Definition try_except (body : block) (handle : string -> block) : block :=
  fun r =>
    match body r with
    | (Ok u, r') => (Ok u, r')
    | (Raise e, r') => handle (exn_str e) r'
    end.

Infix ";;;" := seq (at level 60, right associativity).

(** [bool(os.getenv("DATABASE_URL"))]. *)
Definition env_set (url : option string) : bool :=
  match url with
  | Some u => negb (String.eqb u "")
  | None => false
  end.

Definition test_database (url : option string) (db : store)
  : result response :=
  let response :=
    {| backend := "✅ Running";
       database := "❌ Not Available";
       database_url := None;
       database_name := None;
       connection_status := "Not Connected";
       collections := [] |} in
  let '(r, response) :=
    try_except
      (match db with
       | NoDb => assign (set_database "⚠️  Available but not initialized")
       | _ =>
           assign (set_database "✅ Available") ;;;
           assign (set_database_url
                     (if env_set url then "✅ Set" else "❌ Not Set")) ;;;
           assign (set_database_name
                     (default "✅ Connected" (handle_name db))) ;;;
           assign (set_connection_status "Connected") ;;;
           try_except
             (call (list_collection_names db) (fun collections =>
                assign (set_collections (take 10 collections)) ;;;
                assign (set_database "✅ Connected & Working")))
             (fun e =>
                assign (set_database
                  ("⚠️  Connected but Error: " +:+ str_prefix 50 e)))
       end)
      (fun e => assign (set_database ("❌ Error: " +:+ str_prefix 50 e)))
      response in
  bind r (fun _ => Ok response).

(** *** The crowdfunding endpoints *)

Module CampaignOut.
Record t : Type := {
  id : string;
  title : string;
  description : string;
  goal_amount : float;
  max_supporters : option Z;
  deadline : option Z;
  created_at : Z
}.
End CampaignOut.

Module ContributionOut.
Record t : Type := {
  id : string;
  name : string;
  email : string;
  amount : float;
  message : option string;
  is_public : bool;
  created_at : Z
}.
End ContributionOut.

(** The field types of the two output models: a value of another type
    fails the model's validation.  Stored records carry each field with
    its declared type; pydantic's conversions between types (a numeric
    string taken for a number, say) are left out. *)
Definition as_str (v : value) : result string :=
  match v with
  | VStr s => Ok s
  | _ => Raise ValidationError
  end.
Definition as_opt_str (v : value) : result (option string) :=
  match v with
  | VNone => Ok None
  | VStr s => Ok (Some s)
  | _ => Raise ValidationError
  end.
Definition as_opt_int (v : value) : result (option Z) :=
  match v with
  | VNone => Ok None
  | VInt n => Ok (Some n)
  | _ => Raise ValidationError
  end.
Definition as_datetime (v : value) : result Z :=
  match v with
  | VDate t => Ok t
  | _ => Raise ValidationError
  end.
Definition as_opt_datetime (v : value) : result (option Z) :=
  match v with
  | VNone => Ok None
  | VDate t => Ok (Some t)
  | _ => Raise ValidationError
  end.
Definition as_email `{Runtime} (v : value) : result string :=
  match v with
  | VStr s =>
      match validate_email s with
      | Some e => Ok e
      | None => Raise ValidationError
      end
  | _ => Raise ValidationError
  end.

Section Handlers.
Context `{Runtime}.

(** [POST /api/campaigns], the handler body. *)
Definition create_campaign (now : Z) (payload : Campaign.t)
  : handler string :=
  let! existing := read (get_documents "campaign") in
  match existing with
  | _ :: _ => raise (HTTPException 400 "A campaign already exists")
  | [] =>
      let! inserted_id := create_document now "campaign" payload in
      ret inserted_id
  end.

(** The route: the body is validated against [CreateCampaignRequest]
    before the handler runs. *)
Definition post_campaigns (now : Z) (body : CampaignBody.t)
  : handler string :=
  let! payload := read (fun _ => Schemas.validate_campaign body) in
  create_campaign now payload.

Definition campaign_out (it : document) : result CampaignOut.t :=
  bind (py_float (get it "goal_amount")) (fun goal_amount =>
  bind (as_str (get it "title")) (fun title =>
  bind (as_str (get it "description")) (fun description =>
  bind (as_opt_int (get it "max_supporters")) (fun max_supporters =>
  bind (as_opt_datetime (get it "deadline")) (fun deadline =>
  bind (as_datetime (get it "created_at")) (fun created_at =>
  Ok {| CampaignOut.id := py_str (get it "_id");
        CampaignOut.title := title;
        CampaignOut.description := description;
        CampaignOut.goal_amount := goal_amount;
        CampaignOut.max_supporters := max_supporters;
        CampaignOut.deadline := deadline;
        CampaignOut.created_at := created_at |})))))).

(** [GET /api/campaigns]. *)
Definition list_campaigns (s : store) : result (list CampaignOut.t) :=
  bind (get_documents "campaign" s) (fun items =>
  bind (sort_desc (fun x => get x "created_at") items) (fun items =>
  mapM campaign_out items)).

(** [POST /api/contributions], the handler body. *)
Definition add_contribution (now : Z) (payload : Contribution.t)
  : handler string :=
  let amount := Contribution.amount payload in
  if (amount <=? 0)%float
  then raise (HTTPException 400 "Amount must be positive")
  else
    let! inserted_id := create_document now "contribution" payload in
    ret inserted_id.

Definition post_contributions (now : Z) (body : ContributionBody.t)
  : handler string :=
  let! payload := read (fun _ => Schemas.validate_contribution body) in
  add_contribution now payload.

Definition contribution_out (it : document)
  : result ContributionOut.t :=
  bind (py_float (get it "amount")) (fun amount =>
  bind (as_str (get it "name")) (fun name =>
  bind (as_email (get it "email")) (fun email =>
  bind (as_opt_str (get it "message")) (fun message =>
  bind (as_datetime (get it "created_at")) (fun created_at =>
  Ok {| ContributionOut.id := py_str (get it "_id");
        ContributionOut.name := name;
        ContributionOut.email := email;
        ContributionOut.amount := amount;
        ContributionOut.message := message;
        ContributionOut.is_public :=
          py_bool (get_or it "is_public" (VBool true));
        ContributionOut.created_at := created_at |}))))).

(** [GET /api/contributions?limit=N]. *)
Definition list_contributions (limit : Z) (s : store)
  : result (list ContributionOut.t) :=
  bind (get_documents "contribution" s) (fun items =>
  bind (sort_desc (fun x => get x "created_at") items) (fun items =>
  let items := slice_to limit items in
  mapM contribution_out items)).

(** The route: [limit: int = 200]. *)
Definition get_contributions (limit : option Z) (s : store)
  : result (list ContributionOut.t) :=
  list_contributions (default 200 limit) s.

(** [GET /api/summary]. *)
Record summary : Type := {
  goal : float;
  raised : value;
  backers : Z;
  percent : value;
  remaining_supporters : value
}.

Definition get_summary (s : store) : result summary :=
  bind (get_documents "campaign" s) (fun campaigns =>
  let goal := 100000%float in
  bind (match campaigns with
        | c :: _ =>
            bind (py_float (get_or c "goal_amount" (VFloat goal)))
              (fun goal => Ok (goal, get_or c "max_supporters" (VInt 100)))
        | [] => Ok (goal, VInt 100)
        end) (fun '(goal, max_supporters) =>
  bind (get_documents "contribution" s) (fun contributions =>
  bind (mapM (fun x => py_float (get_or x "amount" (VInt 0)))
          contributions) (fun amounts =>
  let total := py_sum amounts in
  let count := Z.of_nat (length contributions) in
  bind (if (0 <? goal)%float
        then bind (py_truediv total goal) (fun q =>
               Ok (VFloat (py_round2 (q * 100)%float)))
        else Ok (VInt 0)) (fun percent =>
  bind (py_sub_int max_supporters count) (fun diff =>
  bind (py_max0 diff) (fun remaining_supporters =>
  Ok {| goal := goal;
        raised := total;
        backers := count;
        percent := percent;
        remaining_supporters := remaining_supporters |}))))))).

End Handlers.

End Main.

Import Main.

(** ** Vocabulary of the statements *)

Definition duplicate_campaign : exn :=
  HTTPException 400 "A campaign already exists".

Definition amount_not_positive : exn :=
  HTTPException 400 "Amount must be positive".

(** A store that answers and holds nothing yet. *)
Definition empty_db : Database.database := {| contents := ∅; next_oid := 0 |}.
Definition empty_store : store := Up (Some "crowdfund") empty_db.

(** A runtime to evaluate the handlers on: identifiers and integers print
    in decimal, no string reads as a float, and an address is accepted as
    it is when it carries an [@]. *)
Fixpoint has_at (s : string) : bool :=
  match s with
  | EmptyString => false
  | String c s' => if Ascii.eqb c "@"%char then true else has_at s'
  end.

#[export] Instance sample_runtime : Runtime := {|
  py_str v :=
    match v with
    | VStr s => s
    | VOid n => pretty n
    | VInt n => pretty n
    | VBool b => if b then "True" else "False"
    | VNone => "None"
    | VFloat _ | VDate _ => "?"
    end;
  float_of_string _ := None;
  validate_email s := if has_at s then Some s else None
|}.

Definition sample_campaign : Campaign.t :=
  {| Campaign.title := "Well";
     Campaign.description := "A well for the village";
     Campaign.goal_amount := 1000%float;
     Campaign.max_supporters := Some 10;
     Campaign.deadline := None |}.

Definition sample_campaign_body : CampaignBody.t :=
  {| CampaignBody.title := Some "Well";
     CampaignBody.description := Some "A well for the village";
     CampaignBody.goal_amount := Some 1000%float;
     CampaignBody.max_supporters := Some (Some 10);
     CampaignBody.deadline := None |}.

Definition sample_contribution (a : float) : Contribution.t :=
  {| Contribution.name := "Ada";
     Contribution.email := "ada@example.org";
     Contribution.amount := a;
     Contribution.message := None;
     Contribution.is_public := true |}.

Definition sample_contribution_body (a : float) : ContributionBody.t :=
  {| ContributionBody.name := Some "Ada";
     ContributionBody.email := Some "ada@example.org";
     ContributionBody.amount := Some a;
     ContributionBody.message := None;
     ContributionBody.is_public := None |}.

(** [summary]'s view of a contribution: the float its [amount] reads as,
    the integer [0] standing in for a missing field. *)
Definition amount_is `{Runtime} (x : document) (a : float) : Prop :=
  py_float (get_or x "amount" (VInt 0)) = Ok a.

(** What [summary] reads off the campaigns: the goal and the cap on
    supporters of the first one, or the two defaults when there is none. *)
Definition campaign_reads `{Runtime} (d : Database.database)
    (g : float) (m : Z) : Prop :=
  match collection "campaign" d with
  | c :: _ =>
      py_float (get_or c "goal_amount" (VFloat 100000)) = Ok g
      /\ get_or c "max_supporters" (VInt 100) = VInt m
  | [] => g = 100000%float /\ m = 100
  end.

(** The summary computed from the goal, the cap on supporters and the
    amounts that the two reads deliver. *)
Definition summary_of (g : float) (m : Z) (n : nat) (amounts : list float)
  : summary :=
  {| goal := g;
     raised := py_sum amounts;
     backers := Z.of_nat n;
     percent :=
       if (0 <? g)%float
       then VFloat (py_round2
              (fold_left PrimFloat.add amounts 0 / g * 100)%float)
       else VInt 0;
     remaining_supporters := VInt (Z.max 0 (m - Z.of_nat n)) |}.

(** Stores to evaluate the handlers on.  [db_250] is what the routes
    leave after one campaign (goal 1000, at most 10 supporters) and
    contributions of 100 and 150. *)
Definition db_campaign : Database.database :=
  insert_one "campaign" (new_document 5 0%N sample_campaign) empty_db.

Definition db_250 : Database.database :=
  insert_one "contribution" (new_document 7 2%N (sample_contribution 150))
    (insert_one "contribution" (new_document 6 1%N (sample_contribution 100))
       db_campaign).

(** Fifteen contributions against a cap of ten supporters. *)
Definition add_ten (d : Database.database) : Database.database :=
  insert_one "contribution"
    (new_document 6 (next_oid d) (sample_contribution 10)) d.

Definition db_crowded : Database.database := Nat.iter 15 add_ten db_campaign.

(** A campaign whose stored goal is negative, with one contribution. *)
Definition db_negative_goal : Database.database :=
  insert_one "contribution" (new_document 6 1%N (sample_contribution 10))
    (insert_one "campaign"
       (new_document 5 0%N
          {| Campaign.title := "Well";
             Campaign.description := "A well for the village";
             Campaign.goal_amount := (-5)%float;
             Campaign.max_supporters := Some 10;
             Campaign.deadline := None |})
       empty_db).

(** A campaign sent with [max_supporters] set to [null]. *)
Definition uncapped_campaign_body : CampaignBody.t :=
  {| CampaignBody.title := Some "Well";
     CampaignBody.description := Some "A well for the village";
     CampaignBody.goal_amount := Some 1000%float;
     CampaignBody.max_supporters := Some None;
     CampaignBody.deadline := None |}.

Definition uncapped_campaign : Campaign.t :=
  {| Campaign.title := "Well";
     Campaign.description := "A well for the village";
     Campaign.goal_amount := 1000%float;
     Campaign.max_supporters := None;
     Campaign.deadline := None |}.

(** A contribution document without an [amount]. *)
Definition amountless : document :=
  <[ "_id" := VOid 9 ]>
    (<[ "created_at" := VDate 8 ]> (<[ "name" := VStr "Bob" ]> ∅)).

Definition db_amountless : Database.database :=
  insert_one "contribution" amountless db_campaign.

(** Two contributions and no campaign. *)
Definition db_orphans : Database.database :=
  insert_one "contribution" (new_document 7 1%N (sample_contribution 150))
    (insert_one "contribution" (new_document 6 0%N (sample_contribution 100))
       empty_db).

(** The creation time a document carries ([0] when it carries none). *)
Definition created_at (x : document) : Z :=
  match get x "created_at" with
  | VDate t => t
  | _ => 0
  end.

(** Newest first: no record is older than one that comes after it. *)
Definition newest_first (l : list document) : Prop :=
  StronglySorted (fun a b => created_at b <= created_at a) l.

(** A record as the adapter stores it for create-campaign and for
    create-contribution; a stored address is one the check accepts. *)
Definition stored_campaign (x : document) : Prop :=
  exists now oid (p : Campaign.t), x = new_document now oid p.

Definition stored_contribution `{Runtime} (x : document) : Prop :=
  exists now oid (p : Contribution.t),
    x = new_document now oid p
    /\ is_Some (validate_email (Contribution.email p)).

(** Three contributions, made at the times 6, 9 and 7. *)
Definition db_three : Database.database :=
  insert_one "contribution" (new_document 7 2%N (sample_contribution 30))
    (insert_one "contribution" (new_document 9 1%N (sample_contribution 20))
       (insert_one "contribution"
          (new_document 6 0%N (sample_contribution 10)) empty_db)).

(** Five contributions, made at the times 6, 9, 7, 8 and 5. *)
Definition db_five : Database.database :=
  insert_one "contribution" (new_document 5 4%N (sample_contribution 50))
    (insert_one "contribution" (new_document 8 3%N (sample_contribution 40))
       db_three).

(** The stores the two create routes lead to from an empty one. *)
Inductive reachable `{Runtime} : store -> Prop :=
  | reach_empty nm : reachable (Up nm empty_db)
  | reach_campaign s now body :
      reachable s -> reachable (snd (post_campaigns now body s))
  | reach_contribution s now body :
      reachable s -> reachable (snd (post_contributions now body s)).

(** ** [schemas.py]: the two example schemas *)

Module User.
Record t : Type := {
  name : string;
  email : string;
  address : string;
  age : option Z;
  is_active : bool
}.
End User.

Module Product.
Record t : Type := {
  title : string;
  description : option string;
  price : float;
  category : string;
  in_stock : bool
}.
End Product.

(** Their request bodies, decoded field by field as for the campaign: a
    field is [None] when the body does not carry it with the declared
    type, and for [age], whose type is [Optional], the inner [None] is an
    explicit [null]. *)
Module UserBody.
Record t : Type := {
  name : option string;
  email : option string;
  address : option string;
  age : option (option Z);
  is_active : option bool
}.
End UserBody.

Module ProductBody.
Record t : Type := {
  title : option string;
  description : option string;
  price : option float;
  category : option string;
  in_stock : option bool
}.
End ProductBody.

Module ExampleSchemas.







End ExampleSchemas.

(** ** Vocabulary of the further statements *)

(** A campaign and a contribution as the routes store them: the record
    of a payload that passed its schema. *)
Definition api_campaign (x : document) : Prop :=
  exists now oid (p : Campaign.t),
    x = new_document now oid p
    /\ Schemas.gt0 (Campaign.goal_amount p) = true
    /\ from_option Schemas.gt0_int true (Campaign.max_supporters p) = true.

Definition api_contribution (x : document) : Prop :=
  exists now oid (p : Contribution.t),
    x = new_document now oid p
    /\ Schemas.gt0 (Contribution.amount p) = true.

(** The amounts of a list of contributions, added as [summary] adds
    them. *)
Definition total (amounts : list float) : float :=
  fold_left PrimFloat.add amounts 0%float.

(** A body for a user of 34 years and one for a product at 12.5. *)
Definition sample_user_body (age : option (option Z)) : UserBody.t :=
  {| UserBody.name := Some "Ada";
     UserBody.email := Some "ada@example.org";
     UserBody.address := Some "12 Mill Lane";
     UserBody.age := age;
     UserBody.is_active := None |}.

Definition sample_product_body (price : float) : ProductBody.t :=
  {| ProductBody.title := Some "Bucket";
     ProductBody.description := None;
     ProductBody.price := Some price;
     ProductBody.category := Some "tools";
     ProductBody.in_stock := None |}.

(** Stores the routes lead to: after two requests to create a campaign,
    and after a campaign and a contribution. *)
Definition store_after_two_campaigns : store :=
  snd (post_campaigns 9 sample_campaign_body
         (snd (post_campaigns 5 sample_campaign_body empty_store))).

Definition store_after_contribution : store :=
  snd (post_contributions 6 (sample_contribution_body 100)
         (snd (post_campaigns 5 sample_campaign_body empty_store))).

(** Three contributions, the first and the last made at the same time. *)
Definition db_ties : Database.database :=
  insert_one "contribution" (new_document 6 2%N (sample_contribution 30))
    (insert_one "contribution" (new_document 9 1%N (sample_contribution 20))
       (insert_one "contribution"
          (new_document 6 0%N (sample_contribution 10)) empty_db)).

(** A contribution document whose [amount] is [None], after one of 100. *)
Definition nulled : document :=
  <[ "amount" := VNone ]> amountless.

Definition db_nulled : Database.database :=
  insert_one "contribution" nulled
    (insert_one "contribution" (new_document 6 1%N (sample_contribution 100))
       db_campaign).

(** ** Facts about the builtins *)

Section FloatFacts.

Lemma Prim2SF_zero : Prim2SF 0 = S754_zero false.
Proof. reflexivity. Qed.

Lemma SFcompare_refl_finite s m e :
  SFcompare (S754_finite s m e) (S754_finite s m e) = Some Eq.
Proof.
  destruct s; simpl; rewrite Z.compare_refl, ?Pos.compare_cont_refl;
    simpl; try rewrite Pos.compare_refl; reflexivity.
Qed.

(** [gt=0] fails on exactly the floats that are at most zero or NaN. *)
Lemma gt0_false_iff (a : float) :
  Schemas.gt0 a = false <-> (a <=? 0)%float = true \/ is_nan a = true.
Proof.
  unfold Schemas.gt0, is_nan.
  rewrite ltb_spec, leb_spec, FloatAxioms.eqb_spec, Prim2SF_zero.
  unfold SFltb, SFleb, SFeqb.
  destruct (Prim2SF a) as [s|s| |s m e].
  - simpl. tauto.
  - destruct s; simpl; intuition congruence.
  - simpl. tauto.
  - rewrite SFcompare_refl_finite. destruct s; simpl; intuition congruence.
Qed.

(** The handler's test [amount <= 0] implies the failure of [gt=0]. *)
Lemma le0_not_gt0 (a : float) :
  (a <=? 0)%float = true -> Schemas.gt0 a = false.
Proof. intros Hle. apply gt0_false_iff. now left. Qed.

Lemma gt0_not_le0 (a : float) :
  Schemas.gt0 a = true -> (a <=? 0)%float = false.
Proof.
  intros Hgt. destruct (a <=? 0)%float eqn:Hle; [|reflexivity].
  apply le0_not_gt0 in Hle. congruence.
Qed.

End FloatFacts.

(** ** The store adapter *)

Section StoreFacts.
Context `{!Runtime}.

Lemma collection_insert_one coll doc d :
  collection coll (insert_one coll doc d) = collection coll d ++ [doc].
Proof. unfold collection, insert_one; simpl. now rewrite lookup_insert_eq. Qed.

Lemma collection_insert_one_ne coll coll' doc d :
  coll <> coll' ->
  collection coll' (insert_one coll doc d) = collection coll' d.
Proof.
  intros Hne. unfold collection, insert_one; simpl.
  now rewrite lookup_insert_ne.
Qed.

Lemma collection_empty coll : collection coll empty_db = [].
Proof. unfold collection, empty_db; simpl. now rewrite lookup_empty. Qed.

(** A write that raises leaves the store as it was. *)
Lemma create_document_raise {A} `{!BaseModel A} now coll (data : A) s e s' :
  create_document now coll data s = (Raise e, s') -> s' = s.
Proof. destruct s; simpl; intros [= <- <-] || intros [=]; reflexivity. Qed.

Lemma get_documents_up coll nm d :
  get_documents coll (Up nm d) = Ok (collection coll d).
Proof. reflexivity. Qed.

End StoreFacts.

(** ** Creating the campaign *)

Section CreateCampaign.
Context `{!Runtime}.

Lemma create_campaign_up now p nm d :
  create_campaign now p (Up nm d) =
    match collection "campaign" d with
    | [] =>
        (Ok (py_str (VOid (next_oid d))),
         Up nm (insert_one "campaign" (new_document now (next_oid d) p) d))
    | _ :: _ => (Raise duplicate_campaign, Up nm d)
    end.
Proof.
  unfold create_campaign, hbind, read; simpl.
  destruct (collection "campaign" d); reflexivity.
Qed.

Lemma post_campaigns_valid now body p s :
  Schemas.validate_campaign body = Ok p ->
  post_campaigns now body s = create_campaign now p s.
Proof. intros Hv. unfold post_campaigns, hbind, read. now rewrite Hv. Qed.

Lemma post_campaigns_invalid now body e s :
  Schemas.validate_campaign body = Raise e ->
  post_campaigns now body s = (Raise e, s).
Proof. intros Hv. unfold post_campaigns, hbind, read. now rewrite Hv. Qed.

(** C1. On a store that answers, creating a campaign succeeds when the
    [campaign] collection is empty: it returns the identifier of the new
    record, which is then the only campaign; and it fails with the 400
    duplicate-campaign error, leaving the store as it is, when the
    collection holds a record.  So from an empty collection the creation
    succeeds once, and after it every further attempt fails, whatever
    its payload, while the first record stays. *)
Theorem create_campaign_single now (p : Campaign.t) nm d :
  (collection "campaign" d = [] ->
   exists doc s1,
     create_campaign now p (Up nm d) = (Ok (py_str (get doc "_id")), s1)
     /\ doc = new_document now (next_oid d) p
     /\ get_documents "campaign" s1 = Ok [doc]
     /\ (forall now' p',
           create_campaign now' p' s1 = (Raise duplicate_campaign, s1))
     /\ (forall now' body',
           exists e, post_campaigns now' body' s1 = (Raise e, s1)))
  /\ (collection "campaign" d <> [] ->
      create_campaign now p (Up nm d) = (Raise duplicate_campaign, Up nm d))
  /\ (forall body, Schemas.validate_campaign body = Ok p ->
      Schemas.gt0 (Campaign.goal_amount p) = true
      /\ post_campaigns now body (Up nm d)
         = create_campaign now p (Up nm d)).
Proof.
  split; [|split].
  - intros Hempty.
    set (doc := new_document now (next_oid d) p).
    exists doc, (Up nm (insert_one "campaign" doc d)).
    assert (Hcoll : collection "campaign" (insert_one "campaign" doc d)
                    = [doc]).
    { now rewrite collection_insert_one, Hempty. }
    repeat split.
    + rewrite create_campaign_up, Hempty. reflexivity.
    + rewrite get_documents_up. now rewrite Hcoll.
    + intros now' p'. now rewrite create_campaign_up, Hcoll.
    + intros now' body'.
      destruct (Schemas.validate_campaign body') as [p'|e] eqn:Hv.
      * exists duplicate_campaign.
        rewrite (post_campaigns_valid _ _ _ _ Hv).
        now rewrite create_campaign_up, Hcoll.
      * exists e. now apply post_campaigns_invalid.
  - intros Hsome. rewrite create_campaign_up.
    destruct (collection "campaign" d); [contradiction | reflexivity].
  - intros body Hv. split; [|now apply post_campaigns_valid].
    unfold Schemas.validate_campaign, Schemas.campaign_errors in Hv.
    destruct (CampaignBody.title body), (CampaignBody.description body),
      (CampaignBody.goal_amount body) as [g|]; simpl in Hv;
      try discriminate.
    destruct (Schemas.gt0 g) eqn:Hg; simpl in Hv; [|discriminate].
    destruct (Schemas.optional _ _ _); [|discriminate].
    injection Hv as <-. exact Hg.
Qed.

End CreateCampaign.

(** The statement of C1 at a store with no campaign and at the store
    the first creation leaves. *)
Lemma create_campaign_single_witness :
  (exists doc s1,
     create_campaign 5 sample_campaign empty_store
       = (Ok (py_str (get doc "_id")), s1)
     /\ doc = new_document 5 0%N sample_campaign
     /\ get_documents "campaign" s1 = Ok [doc]
     /\ (forall now' p',
           create_campaign now' p' s1 = (Raise duplicate_campaign, s1))
     /\ (forall now' body',
           exists e, post_campaigns now' body' s1 = (Raise e, s1)))
  /\ create_campaign 9 sample_campaign
       (Up None (insert_one "campaign"
                   (new_document 5 0%N sample_campaign) empty_db))
     = (Raise duplicate_campaign,
        Up None (insert_one "campaign"
                   (new_document 5 0%N sample_campaign) empty_db)).
Proof.
  split.
  - apply (create_campaign_single 5 sample_campaign (Some "crowdfund")
             empty_db).
    reflexivity.
  - apply (create_campaign_single 9 sample_campaign None
             (insert_one "campaign" (new_document 5 0%N sample_campaign)
                empty_db)).
    rewrite collection_insert_one. simpl. discriminate.
Defined.

(** ** Rejected requests *)

Section Rejection.
Context `{!Runtime}.

Lemma create_campaign_raise now p s e s' :
  create_campaign now p s = (Raise e, s') -> s' = s.
Proof.
  unfold create_campaign, hbind, read, raise.
  destruct (get_documents "campaign" s) as [[|? ?]|?];
    try (intros [= <- <-]; reflexivity).
  destruct (create_document now "campaign" p s) as [[id|e'] s''] eqn:Hc;
    unfold ret; intros [= <- <-].
  now apply create_document_raise in Hc.
Qed.

Lemma add_contribution_raise now p s e s' :
  add_contribution now p s = (Raise e, s') -> s' = s.
Proof.
  unfold add_contribution, hbind, raise.
  destruct (Contribution.amount p <=? 0)%float;
    [intros [= <- <-]; reflexivity|].
  destruct (create_document now "contribution" p s) as [[id|e'] s''] eqn:Hc;
    unfold ret; intros [= <- <-].
  now apply create_document_raise in Hc.
Qed.

Lemma post_contributions_valid now body p s :
  Schemas.validate_contribution body = Ok p ->
  post_contributions now body s = add_contribution now p s.
Proof. intros Hv. unfold post_contributions, hbind, read. now rewrite Hv. Qed.

Lemma post_contributions_invalid now body e s :
  Schemas.validate_contribution body = Raise e ->
  post_contributions now body s = (Raise e, s).
Proof. intros Hv. unfold post_contributions, hbind, read. now rewrite Hv. Qed.

(** C7. A request that create-campaign or create-contribution rejects,
    at the validation of its body or in the handler, leaves the store
    as it was. *)
Theorem rejected_request_leaves_store now s e s' :
  (forall body, post_campaigns now body s = (Raise e, s') -> s' = s)
  /\ (forall body, post_contributions now body s = (Raise e, s') -> s' = s)
  /\ (forall p, create_campaign now p s = (Raise e, s') -> s' = s)
  /\ (forall p, add_contribution now p s = (Raise e, s') -> s' = s).
Proof.
  repeat split.
  - intros body.
    destruct (Schemas.validate_campaign body) as [p|e'] eqn:Hv.
    + rewrite (post_campaigns_valid _ _ _ _ Hv).
      apply create_campaign_raise.
    + rewrite (post_campaigns_invalid _ _ _ _ Hv). now intros [= <- <-].
  - intros body.
    destruct (Schemas.validate_contribution body) as [p|e'] eqn:Hv.
    + rewrite (post_contributions_valid _ _ _ _ Hv).
      apply add_contribution_raise.
    + rewrite (post_contributions_invalid _ _ _ _ Hv). now intros [= <- <-].
  - intros p. apply create_campaign_raise.
  - intros p. apply add_contribution_raise.
Qed.

(** A body is rejected as soon as one of its fields is reported. *)
Lemma validate_campaign_errors body :
  Schemas.campaign_errors body <> [] ->
  Schemas.validate_campaign body
  = Raise (RequestValidationError (Schemas.campaign_errors body)).
Proof.
  unfold Schemas.validate_campaign.
  destruct (Schemas.campaign_errors body); [contradiction|reflexivity].
Qed.

Lemma validate_contribution_errors body :
  Schemas.contribution_errors body <> [] ->
  Schemas.validate_contribution body
  = Raise (RequestValidationError (Schemas.contribution_errors body)).
Proof.
  unfold Schemas.validate_contribution.
  destruct (Schemas.contribution_errors body); [contradiction|reflexivity].
Qed.

Lemma elem_of_not_nil {A} (x : A) l : x ∈ l -> l <> [].
Proof. intros Hx ->. now apply not_elem_of_nil in Hx. Qed.

(** C3, as the code has it.  The three text fields are required: a body
    without [title] or [description] is rejected by create-campaign, one
    without [name] by create-contribution, with a validation error that
    names the field and with the store untouched.  Their text is not
    constrained any further: whatever the strings, the empty one
    included, a body passes validation when its other fields do. *)
Theorem text_fields_required now s :
  (forall body,
     CampaignBody.title body = None \/ CampaignBody.description body = None ->
     exists fields,
       post_campaigns now body s = (Raise (RequestValidationError fields), s)
       /\ ("title" ∈ fields \/ "description" ∈ fields))
  /\ (forall body,
        ContributionBody.name body = None ->
        exists fields,
          post_contributions now body s
          = (Raise (RequestValidationError fields), s)
          /\ "name" ∈ fields)
  /\ (forall t d g ms dl,
        Schemas.gt0 g = true ->
        from_option (from_option Schemas.gt0_int true) true ms = true ->
        exists p,
          Schemas.validate_campaign
            {| CampaignBody.title := Some t;
               CampaignBody.description := Some d;
               CampaignBody.goal_amount := Some g;
               CampaignBody.max_supporters := ms;
               CampaignBody.deadline := dl |} = Ok p
          /\ Campaign.title p = t /\ Campaign.description p = d)
  /\ (forall n e e' a m pub,
        validate_email e = Some e' ->
        Schemas.gt0 a = true ->
        exists p,
          Schemas.validate_contribution
            {| ContributionBody.name := Some n;
               ContributionBody.email := Some e;
               ContributionBody.amount := Some a;
               ContributionBody.message := m;
               ContributionBody.is_public := pub |} = Ok p
          /\ Contribution.name p = n).
Proof.
  split; [|split; [|split]].
  - intros body Hmiss.
    exists (Schemas.campaign_errors body).
    assert (Hin : "title" ∈ Schemas.campaign_errors body
                  \/ "description" ∈ Schemas.campaign_errors body).
    { unfold Schemas.campaign_errors.
      destruct Hmiss as [-> | ->]; [left|right]; simpl.
      - apply elem_of_cons; now left.
      - apply elem_of_app; right. apply elem_of_cons; now left. }
    split; [|exact Hin].
    apply post_campaigns_invalid, validate_campaign_errors.
    destruct Hin as [Hin|Hin]; exact (elem_of_not_nil _ _ Hin).
  - intros body Hmiss.
    exists (Schemas.contribution_errors body).
    assert (Hin : "name" ∈ Schemas.contribution_errors body).
    { unfold Schemas.contribution_errors. rewrite Hmiss; simpl.
      apply elem_of_cons; now left. }
    split; [|exact Hin].
    apply post_contributions_invalid, validate_contribution_errors.
    exact (elem_of_not_nil _ _ Hin).
  - intros t d g ms dl Hg Hms.
    unfold Schemas.validate_campaign, Schemas.campaign_errors.
    simpl. rewrite Hg; simpl.
    destruct ms as [o|]; simpl in *; [rewrite Hms|]; simpl;
      eexists; repeat split; reflexivity.
  - intros n e e' a m pub He Ha.
    unfold Schemas.validate_contribution, Schemas.contribution_errors.
    simpl. rewrite He, Ha; simpl.
    eexists; repeat split; reflexivity.
Qed.

(** C4, as the code has it.  A contribution whose amount is at most
    zero never reaches the store: the validation of the body reports
    [amount], and the handler, run on such a payload, raises its 400.
    The handler's test fails on exactly the amounts that are at most
    zero; the schema's constraint fails on those and on NaN, so the two
    agree on every amount that is a number. *)
Theorem nonpositive_amount_rejected now s :
  (forall body a,
     ContributionBody.amount body = Some a ->
     (a <=? 0)%float = true ->
     exists fields,
       post_contributions now body s
       = (Raise (RequestValidationError fields), s)
       /\ "amount" ∈ fields)
  /\ (forall p,
        (Contribution.amount p <=? 0)%float = true ->
        add_contribution now p s = (Raise amount_not_positive, s))
  /\ (forall p,
        (Contribution.amount p <=? 0)%float = false ->
        add_contribution now p s = create_document now "contribution" p s)
  /\ (forall a,
        Schemas.gt0 a = false <->
        (a <=? 0)%float = true \/ is_nan a = true)
  /\ (forall a,
        is_nan a = false ->
        Schemas.gt0 a = negb (a <=? 0)%float).
Proof.
  split; [|split; [|split; [|split]]].
  - intros body a Ha Hle.
    exists (Schemas.contribution_errors body).
    assert (Hin : "amount" ∈ Schemas.contribution_errors body).
    { unfold Schemas.contribution_errors. rewrite Ha; simpl.
      rewrite (le0_not_gt0 _ Hle).
      apply elem_of_app; right. apply elem_of_app; right.
      apply elem_of_cons; now left. }
    split; [|exact Hin].
    apply post_contributions_invalid, validate_contribution_errors.
    exact (elem_of_not_nil _ _ Hin).
  - intros p Hle. unfold add_contribution. now rewrite Hle.
  - intros p Hle. unfold add_contribution. rewrite Hle.
    unfold hbind, ret.
    now destruct (create_document now "contribution" p s) as [[?|?] ?].
  - apply gt0_false_iff.
  - intros a Hnan.
    destruct (Schemas.gt0 a) eqn:Hg.
    + now rewrite (gt0_not_le0 _ Hg).
    + apply gt0_false_iff in Hg as [-> | Hn]; [reflexivity|congruence].
Qed.

End Rejection.

(** The rejection statement at a second campaign, which the handler
    refuses. *)
Lemma rejected_request_leaves_store_witness :
  snd (create_campaign 9 sample_campaign
         (snd (create_campaign 5 sample_campaign empty_store)))
  = snd (create_campaign 5 sample_campaign empty_store).
Proof.
  apply (proj1 (proj2 (proj2
           (rejected_request_leaves_store 9
              (snd (create_campaign 5 sample_campaign empty_store))
              duplicate_campaign _)))
           sample_campaign).
  vm_compute. reflexivity.
Defined.

(** A body without a title, and one with an empty title. *)
Lemma text_fields_required_witness :
  (exists fields,
     post_campaigns 5
       {| CampaignBody.title := None;
          CampaignBody.description := Some "A well for the village";
          CampaignBody.goal_amount := Some 1000%float;
          CampaignBody.max_supporters := None;
          CampaignBody.deadline := None |} empty_store
     = (Raise (RequestValidationError fields), empty_store)
     /\ ("title" ∈ fields \/ "description" ∈ fields))
  /\ (exists p,
        Schemas.validate_campaign
          {| CampaignBody.title := Some "";
             CampaignBody.description := Some "";
             CampaignBody.goal_amount := Some 1000%float;
             CampaignBody.max_supporters := None;
             CampaignBody.deadline := None |} = Ok p
        /\ Campaign.title p = "" /\ Campaign.description p = "").
Proof.
  split.
  - apply (text_fields_required 5 empty_store). left. reflexivity.
  - apply (text_fields_required 5 empty_store); reflexivity.
Defined.

(** C3 as stated fails: a campaign whose title and description are the
    empty string is created, and so is a contribution with an empty
    name. *)
Lemma empty_text_accepted :
  fst (post_campaigns 5
         {| CampaignBody.title := Some "";
            CampaignBody.description := Some "";
            CampaignBody.goal_amount := Some 1000%float;
            CampaignBody.max_supporters := None;
            CampaignBody.deadline := None |} empty_store) = Ok "0"
  /\ fst (post_contributions 5
            {| ContributionBody.name := Some "";
               ContributionBody.email := Some "ada@example.org";
               ContributionBody.amount := Some 25%float;
               ContributionBody.message := None;
               ContributionBody.is_public := None |} empty_store) = Ok "0".
Proof. split; vm_compute; reflexivity. Qed.

(** A contribution of minus five. *)
Lemma nonpositive_amount_rejected_witness :
  (exists fields,
     post_contributions 5 (sample_contribution_body (-5)%float) empty_store
     = (Raise (RequestValidationError fields), empty_store)
     /\ "amount" ∈ fields)
  /\ add_contribution 5 (sample_contribution (-5)%float) empty_store
     = (Raise amount_not_positive, empty_store).
Proof.
  split.
  - apply (proj1 (nonpositive_amount_rejected 5 empty_store)
             (sample_contribution_body (-5)%float) (-5)%float); reflexivity.
  - apply (proj1 (proj2 (nonpositive_amount_rejected 5 empty_store))
             (sample_contribution (-5)%float)); reflexivity.
Defined.

(** C4 as stated fails at NaN: the schema's constraint rejects it, though
    it is not at most zero, and the handler's test lets it through. *)
Lemma nan_amount_divides_the_checks :
  (nan <=? 0)%float = false
  /\ Schemas.gt0 nan = false
  /\ (exists fields,
        post_contributions 5 (sample_contribution_body nan) empty_store
        = (Raise (RequestValidationError fields), empty_store)
        /\ "amount" ∈ fields)
  /\ fst (add_contribution 5 (sample_contribution nan) empty_store) = Ok "0".
Proof.
  split; [reflexivity|]. split; [reflexivity|]. split.
  - exists ["amount"]. split; [vm_compute; reflexivity|].
    apply elem_of_cons; now left.
  - vm_compute; reflexivity.
Qed.

(** ** Diagnostics *)

(** C8. The diagnostics handler returns its report for every state of the
    store handle and every environment: a missing handle and a server
    that does not answer are told in the [database] text, the latter with
    the first fifty characters of the error, and [collections] never has
    more than ten entries. *)
Theorem test_database_total (url : option string) (db : store) :
  exists r,
    test_database url db = Ok r
    /\ (length (collections r) <= 10)%nat
    /\ backend r = "✅ Running"
    /\ match db with
       | NoDb =>
           database r = "⚠️  Available but not initialized"
           /\ connection_status r = "Not Connected"
           /\ collections r = []
       | Down _ err =>
           database r = "⚠️  Connected but Error: " +:+ str_prefix 50 err
           /\ connection_status r = "Connected"
           /\ collections r = []
       | Up _ d =>
           database r = "✅ Connected & Working"
           /\ connection_status r = "Connected"
           /\ collections r = take 10 (fst <$> map_to_list (contents d))
       end.
Proof.
  destruct db as [|nm err|nm d]; eexists; (split; [reflexivity|]); simpl;
    repeat split; try lia.
  rewrite length_take. lia.
Qed.

(** ** The summary *)

Section Summary.
Context `{!Runtime}.

Lemma mapM_Forall2 {A B} (f : A -> result B) l l' :
  Forall2 (fun x y => f x = Ok y) l l' -> mapM f l = Ok l'.
Proof.
  induction 1 as [|x y l l' Hxy _ IH]; simpl; [reflexivity|].
  now rewrite Hxy, IH.
Qed.

Lemma py_float_sum amounts :
  py_float (py_sum amounts) = Ok (fold_left PrimFloat.add amounts 0%float).
Proof. destruct amounts; reflexivity. Qed.

(** A float above zero is not zero. *)
Lemma gt0_not_zero (g : float) : (0 <? g)%float = true -> (g =? 0)%float = false.
Proof.
  rewrite ltb_spec, FloatAxioms.eqb_spec, Prim2SF_zero.
  unfold SFltb, SFeqb.
  destruct (Prim2SF g) as [s|s| |s m e]; simpl; try discriminate;
    destruct s; simpl; congruence.
Qed.

Lemma py_truediv_sum amounts g :
  (0 <? g)%float = true ->
  py_truediv (py_sum amounts) g
  = Ok (fold_left PrimFloat.add amounts 0 / g)%float.
Proof.
  intros Hg. unfold py_truediv. rewrite py_float_sum; simpl.
  now rewrite (gt0_not_zero _ Hg).
Qed.

Lemma if_pos_max (m : Z) : (if 0 <? m then m else 0) = Z.max 0 m.
Proof. destruct (0 <? m) eqn:Hm; lia. Qed.

Lemma py_max0_int m : py_max0 (VInt m) = Ok (VInt (Z.max 0 m)).
Proof. simpl. now rewrite if_pos_max. Qed.

(** The summary once the campaigns are read: the amounts are read
    next, and a read that raises ends the request. *)
Lemma get_summary_reads nm d g m :
  campaign_reads d g m ->
  get_summary (Up nm d)
  = bind (mapM (fun x => py_float (get_or x "amount" (VInt 0)))
            (collection "contribution" d))
      (fun amounts =>
         Ok (summary_of g m (length (collection "contribution" d))
               amounts)).
Proof.
  unfold campaign_reads.
  intros Hc. unfold get_summary. rewrite !get_documents_up; simpl.
  assert (Hfirst :
    match collection "campaign" d with
    | c :: _ =>
        bind (py_float (get_or c "goal_amount" (VFloat 100000)))
          (fun goal => Ok (goal, get_or c "max_supporters" (VInt 100)))
    | [] => Ok (100000%float, VInt 100)
    end = Ok (g, VInt m)).
  { destruct (collection "campaign" d) as [|c rest].
    - now destruct Hc as [-> ->].
    - destruct Hc as [-> ->]. reflexivity. }
  rewrite Hfirst; simpl.
  destruct (mapM _ (collection "contribution" d)) as [amounts|e]; simpl;
    [|reflexivity].
  unfold summary_of.
  destruct (0 <? g)%float eqn:Hg.
  - rewrite (py_truediv_sum _ _ Hg); simpl. now rewrite if_pos_max.
  - simpl. now rewrite if_pos_max.
Qed.

Lemma get_summary_of nm d g m amounts :
  campaign_reads d g m ->
  Forall2 amount_is (collection "contribution" d) amounts ->
  get_summary (Up nm d)
  = Ok (summary_of g m (length (collection "contribution" d)) amounts).
Proof.
  intros Hc Ha. rewrite (get_summary_reads _ _ _ _ Hc).
  now rewrite (mapM_Forall2 _ _ _ Ha).
Qed.

(** C2, as the code has it.  When the first campaign carries a goal
    that reads as a float and an integer cap on supporters, and every
    contribution an amount that reads as a float, the summary reports
    that goal, the sum of the amounts added left to right (the integer
    [0] when there is none), the number of contributions, the percentage
    [round(raised / goal * 100, 2)] when the goal is above zero and the
    integer [0] otherwise, and [max(0, max_supporters - backers)], which
    is never negative. *)
Theorem summary_of_campaign nm d c rest g m amounts :
  collection "campaign" d = c :: rest ->
  py_float (get_or c "goal_amount" (VFloat 100000)) = Ok g ->
  get_or c "max_supporters" (VInt 100) = VInt m ->
  Forall2 amount_is (collection "contribution" d) amounts ->
  exists r,
    get_summary (Up nm d) = Ok r
    /\ goal r = g
    /\ raised r = py_sum amounts
    /\ backers r = Z.of_nat (length (collection "contribution" d))
    /\ percent r
       = (if (0 <? g)%float
          then VFloat (py_round2
                 (fold_left PrimFloat.add amounts 0 / g * 100)%float)
          else VInt 0)
    /\ remaining_supporters r = VInt (Z.max 0 (m - backers r))
    /\ 0 <= Z.max 0 (m - backers r).
Proof.
  intros Hc Hg Hm Ha.
  exists (summary_of g m (length (collection "contribution" d)) amounts).
  split.
  - apply get_summary_of; [|exact Ha].
    unfold campaign_reads. rewrite Hc. now split.
  - simpl. repeat split. lia.
Qed.

(** C6. With no campaign in the store the summary computes with the
    goal 100000 and the cap of 100 supporters, and with nothing else in
    their place: once the amounts are read it reports that goal, the
    percentage of it that was raised, and [max(0, 100 - backers)]. *)
Theorem summary_defaults nm d :
  collection "campaign" d = [] ->
  get_summary (Up nm d)
  = bind (mapM (fun x => py_float (get_or x "amount" (VInt 0)))
            (collection "contribution" d))
      (fun amounts =>
         Ok (summary_of 100000 100
               (length (collection "contribution" d)) amounts))
  /\ (forall amounts,
        Forall2 amount_is (collection "contribution" d) amounts ->
        exists r,
          get_summary (Up nm d) = Ok r
          /\ goal r = 100000%float
          /\ raised r = py_sum amounts
          /\ percent r
             = VFloat (py_round2
                 (fold_left PrimFloat.add amounts 0 / 100000 * 100)%float)
          /\ remaining_supporters r = VInt (Z.max 0 (100 - backers r))
          /\ backers r = Z.of_nat (length (collection "contribution" d))).
Proof.
  intros Hc.
  assert (Hreads : campaign_reads d 100000 100).
  { unfold campaign_reads. rewrite Hc. now split. }
  split; [now apply get_summary_reads|].
  intros amounts Ha.
  exists (summary_of 100000 100 (length (collection "contribution" d))
            amounts).
  split; [now apply get_summary_of|]. simpl. repeat split.
Qed.

(** The first campaign carries [None] as its cap: the summary raises. *)
Lemma summary_without_cap nm d c rest g amounts :
  collection "campaign" d = c :: rest ->
  py_float (get_or c "goal_amount" (VFloat 100000)) = Ok g ->
  get_or c "max_supporters" (VInt 100) = VNone ->
  Forall2 amount_is (collection "contribution" d) amounts ->
  get_summary (Up nm d) = Raise TypeError.
Proof.
  intros Hc Hg Hm Ha. unfold get_summary. rewrite !get_documents_up; simpl.
  rewrite Hc, Hg, Hm; simpl.
  rewrite (mapM_Forall2 _ _ _ Ha); simpl.
  destruct (0 <? g)%float eqn:Hpos; [|reflexivity].
  now rewrite (py_truediv_sum _ _ Hpos).
Qed.

End Summary.

(** ** Documents as the adapter stores them *)

Section StoredDocuments.
Context `{!Runtime}.

Ltac lookup_field :=
  unfold get, get_or, new_document, model_dump; simpl;
  repeat (rewrite lookup_insert_ne by done);
  first [ rewrite lookup_insert_eq | rewrite lookup_empty ]; reflexivity.

Lemma new_document_id {A} `{!BaseModel A} now oid (p : A) :
  get (new_document now oid p) "_id" = VOid oid.
Proof. lookup_field. Qed.

Lemma new_document_created_at {A} `{!BaseModel A} now oid (p : A) :
  get (new_document now oid p) "created_at" = VDate now.
Proof. lookup_field. Qed.

Lemma campaign_goal_amount now oid (p : Campaign.t) dflt :
  get_or (new_document now oid p) "goal_amount" dflt
  = VFloat (Campaign.goal_amount p).
Proof. lookup_field. Qed.

Lemma campaign_max_supporters now oid (p : Campaign.t) dflt :
  get_or (new_document now oid p) "max_supporters" dflt
  = dump_opt VInt (Campaign.max_supporters p).
Proof. lookup_field. Qed.

Lemma contribution_amount now oid (p : Contribution.t) dflt :
  get_or (new_document now oid p) "amount" dflt
  = VFloat (Contribution.amount p).
Proof. lookup_field. Qed.

Lemma amount_is_new_document now oid (p : Contribution.t) :
  amount_is (new_document now oid p) (Contribution.amount p).
Proof. unfold amount_is. now rewrite contribution_amount. Qed.

(** The output model of a stored campaign. *)
Lemma campaign_out_new_document now oid (p : Campaign.t) :
  campaign_out (new_document now oid p)
  = Ok {| CampaignOut.id := py_str (VOid oid);
          CampaignOut.title := Campaign.title p;
          CampaignOut.description := Campaign.description p;
          CampaignOut.goal_amount := Campaign.goal_amount p;
          CampaignOut.max_supporters := Campaign.max_supporters p;
          CampaignOut.deadline := Campaign.deadline p;
          CampaignOut.created_at := now |}.
Proof.
  unfold campaign_out.
  rewrite new_document_id, new_document_created_at.
  replace (get (new_document now oid p) "goal_amount")
    with (VFloat (Campaign.goal_amount p)) by (symmetry; lookup_field).
  replace (get (new_document now oid p) "title")
    with (VStr (Campaign.title p)) by (symmetry; lookup_field).
  replace (get (new_document now oid p) "description")
    with (VStr (Campaign.description p)) by (symmetry; lookup_field).
  replace (get (new_document now oid p) "max_supporters")
    with (dump_opt VInt (Campaign.max_supporters p))
    by (symmetry; lookup_field).
  replace (get (new_document now oid p) "deadline")
    with (dump_opt VDate (Campaign.deadline p))
    by (symmetry; lookup_field).
  simpl.
  destruct (Campaign.max_supporters p), (Campaign.deadline p); reflexivity.
Qed.

(** The output model of a stored contribution whose address passes the
    check again. *)
Lemma contribution_out_new_document now oid (p : Contribution.t) e :
  validate_email (Contribution.email p) = Some e ->
  contribution_out (new_document now oid p)
  = Ok {| ContributionOut.id := py_str (VOid oid);
          ContributionOut.name := Contribution.name p;
          ContributionOut.email := e;
          ContributionOut.amount := Contribution.amount p;
          ContributionOut.message := Contribution.message p;
          ContributionOut.is_public := Contribution.is_public p;
          ContributionOut.created_at := now |}.
Proof.
  intros He. unfold contribution_out.
  rewrite new_document_id, new_document_created_at.
  replace (get (new_document now oid p) "amount")
    with (VFloat (Contribution.amount p)) by (symmetry; lookup_field).
  replace (get (new_document now oid p) "name")
    with (VStr (Contribution.name p)) by (symmetry; lookup_field).
  replace (get (new_document now oid p) "email")
    with (VStr (Contribution.email p)) by (symmetry; lookup_field).
  replace (get (new_document now oid p) "message")
    with (dump_opt VStr (Contribution.message p))
    by (symmetry; lookup_field).
  replace (get_or (new_document now oid p) "is_public" (VBool true))
    with (VBool (Contribution.is_public p)) by (symmetry; lookup_field).
  simpl. rewrite He.
  destruct (Contribution.message p); reflexivity.
Qed.

End StoredDocuments.

Section AmountlessContribution.
Context `{!Runtime}.

Lemma amount_is_missing (x : document) :
  x !! "amount" = None -> amount_is x 0%float.
Proof. intros Hx. unfold amount_is, get_or. now rewrite Hx. Qed.

(** C10. A contribution document without an [amount] is counted by the
    summary: among the amounts it stands as the term [0], while the
    number of backers grows by one and the remaining supporters shrink
    by one (staying at zero once there). *)
Theorem contribution_without_amount nm d d' l1 x l2 g m a1 a2 :
  campaign_reads d g m ->
  collection "campaign" d' = collection "campaign" d ->
  collection "contribution" d = l1 ++ l2 ->
  collection "contribution" d' = l1 ++ x :: l2 ->
  x !! "amount" = None ->
  Forall2 amount_is l1 a1 ->
  Forall2 amount_is l2 a2 ->
  exists r r' k,
    get_summary (Up nm d) = Ok r
    /\ get_summary (Up nm d') = Ok r'
    /\ raised r = py_sum (a1 ++ a2)
    /\ raised r' = py_sum (a1 ++ 0%float :: a2)
    /\ backers r' = backers r + 1
    /\ remaining_supporters r = VInt k
    /\ remaining_supporters r' = VInt (Z.max 0 (k - 1)).
Proof.
  intros Hc Hsame Hd Hd' Hx H1 H2.
  exists (summary_of g m (length (l1 ++ l2)) (a1 ++ a2)),
         (summary_of g m (length (l1 ++ x :: l2)) (a1 ++ 0%float :: a2)),
         (Z.max 0 (m - Z.of_nat (length (l1 ++ l2)))).
  split; [|split].
  - rewrite <- Hd. apply get_summary_of; [exact Hc|].
    rewrite Hd. now apply Forall2_app.
  - rewrite <- Hd'. apply get_summary_of.
    + unfold campaign_reads in *. now rewrite Hsame.
    + rewrite Hd'. apply Forall2_app; [exact H1|].
      constructor; [now apply amount_is_missing | exact H2].
  - simpl. repeat split.
    + rewrite !length_app; simpl. lia.
    + f_equal. rewrite !length_app; simpl. lia.
Qed.

End AmountlessContribution.

(** ** The sample stores *)

Lemma campaigns_db_campaign :
  collection "campaign" db_campaign = [new_document 5 0%N sample_campaign].
Proof. unfold db_campaign. now rewrite collection_insert_one. Qed.

Lemma contributions_db_campaign : collection "contribution" db_campaign = [].
Proof.
  unfold db_campaign. now rewrite collection_insert_one_ne by done.
Qed.

Lemma campaigns_db_250 :
  collection "campaign" db_250 = [new_document 5 0%N sample_campaign].
Proof.
  unfold db_250. rewrite !collection_insert_one_ne by done.
  apply campaigns_db_campaign.
Qed.

Lemma contributions_db_250 :
  collection "contribution" db_250
  = [new_document 6 1%N (sample_contribution 100);
     new_document 7 2%N (sample_contribution 150)].
Proof.
  unfold db_250. rewrite !collection_insert_one, contributions_db_campaign.
  reflexivity.
Qed.

Lemma add_ten_iter n d :
  collection "campaign" (Nat.iter n add_ten d) = collection "campaign" d
  /\ (collection "contribution" d = [] ->
      Forall2 amount_is (collection "contribution" (Nat.iter n add_ten d))
        (replicate n 10%float)).
Proof.
  induction n as [|n [IHc IHa]].
  - split; [reflexivity|]. simpl. intros ->. constructor.
  - change (Nat.iter (S n) add_ten d) with (add_ten (Nat.iter n add_ten d)).
    unfold add_ten at 1 3. split.
    + now rewrite collection_insert_one_ne by done.
    + intros Hd. rewrite collection_insert_one, replicate_S_end.
      apply Forall2_app; [now apply IHa|].
      constructor; [|constructor].
      exact (amount_is_new_document 6 _ (sample_contribution 10)).
Qed.

(** The routes lead from the empty store to [db_250]. *)
Lemma db_250_reached :
  snd (post_contributions 7 (sample_contribution_body 150)
         (snd (post_contributions 6 (sample_contribution_body 100)
                 (snd (post_campaigns 5 sample_campaign_body empty_store)))))
  = Up (Some "crowdfund") db_250.
Proof. vm_cast_no_check (@eq_refl store (Up (Some "crowdfund") db_250)). Qed.

(** The two examples of C2: a goal of 1000 with 250 raised, and fifteen
    contributions against a cap of ten. *)
Lemma summary_of_campaign_witness :
  (exists r,
     get_summary (Up None db_250) = Ok r
     /\ goal r = 1000%float
     /\ raised r = VFloat 250
     /\ backers r = 2
     /\ percent r = VFloat 25
     /\ remaining_supporters r = VInt 8)
  /\ (exists r,
        get_summary (Up None db_crowded) = Ok r
        /\ backers r = 15
        /\ remaining_supporters r = VInt 0).
Proof.
  split.
  - destruct (summary_of_campaign None db_250
                (new_document 5 0%N sample_campaign) [] 1000%float 10
                [100%float; 150%float])
      as (r & Hr & Hg & Hraised & Hb & Hp & Hrem & _).
    + apply campaigns_db_250.
    + now rewrite campaign_goal_amount.
    + now rewrite campaign_max_supporters.
    + rewrite contributions_db_250.
      constructor;
        [exact (amount_is_new_document 6 1 (sample_contribution 100))|].
      constructor;
        [exact (amount_is_new_document 7 2 (sample_contribution 150))|].
      constructor.
    + exists r. rewrite Hrem, Hb, Hp, Hraised, Hg, contributions_db_250.
      split; [exact Hr|]. repeat split; vm_compute; reflexivity.
  - destruct (add_ten_iter 15 db_campaign) as [Hc Ha].
    destruct (summary_of_campaign None db_crowded
                (new_document 5 0%N sample_campaign) [] 1000%float 10
                (replicate 15 10%float))
      as (r & Hr & _ & _ & Hb & _ & Hrem & _).
    + unfold db_crowded. rewrite Hc. apply campaigns_db_campaign.
    + now rewrite campaign_goal_amount.
    + now rewrite campaign_max_supporters.
    + apply Ha, contributions_db_campaign.
    + exists r. rewrite Hrem, Hb.
      assert (Hlen : length (collection "contribution" db_crowded) = 15%nat).
      { apply Forall2_length in Ha; [|apply contributions_db_campaign].
        exact Ha. }
      rewrite Hlen.
      split; [exact Hr|]. split; reflexivity.
Defined.

(** C2 as stated fails.  With no campaign there is no first campaign to
    take the goal from, and the summary reports the default.  With a
    stored goal of minus five and ten raised, the formula gives minus two
    hundred, and the summary reports the integer zero. *)
Lemma summary_departs_from_formula :
  get_documents "campaign" empty_store = Ok []
  /\ (exists r,
        get_summary empty_store = Ok r
        /\ goal r = 100000%float
        /\ raised r = VInt 0)
  /\ (exists r,
        get_summary (Up None db_negative_goal) = Ok r
        /\ goal r = (-5)%float
        /\ raised r = VFloat 10
        /\ percent r = VInt 0
        /\ py_round2 (10 / goal r * 100)%float = (-200)%float).
Proof.
  split; [reflexivity|]. split.
  - eexists. split; [vm_compute; reflexivity|]. split; reflexivity.
  - eexists. split; [vm_compute; reflexivity|].
    repeat split; vm_compute; reflexivity.
Qed.

(** A campaign created with [max_supporters] set to [null] is stored with
    [None] for its cap, and the summary of that store raises. *)
Lemma summary_of_uncapped_campaign :
  exists id s,
    post_campaigns 5 uncapped_campaign_body empty_store = (Ok id, s)
    /\ get_summary s = Raise TypeError.
Proof.
  exists "0",
    (Up (Some "crowdfund")
       (insert_one "campaign" (new_document 5 0%N uncapped_campaign)
          empty_db)).
  split; [reflexivity|].
  apply (summary_without_cap _ _ (new_document 5 0%N uncapped_campaign) []
           1000%float []).
  - now rewrite collection_insert_one.
  - now rewrite campaign_goal_amount.
  - now rewrite campaign_max_supporters.
  - rewrite collection_insert_one_ne by done. constructor.
Qed.

(** No campaign and two contributions. *)
Lemma summary_defaults_witness :
  exists r,
    get_summary (Up None db_orphans) = Ok r
    /\ goal r = 100000%float
    /\ raised r = VFloat 250
    /\ percent r = VFloat 0.25
    /\ remaining_supporters r = VInt 98.
Proof.
  assert (Hl : collection "contribution" db_orphans
               = [new_document 6 0%N (sample_contribution 100);
                  new_document 7 1%N (sample_contribution 150)]).
  { unfold db_orphans. now rewrite !collection_insert_one, collection_empty. }
  destruct (summary_defaults None db_orphans) as [_ Hsum].
  { unfold db_orphans. rewrite !collection_insert_one_ne by done.
    apply collection_empty. }
  destruct (Hsum [100%float; 150%float])
    as (r & Hr & Hg & Hraised & Hp & Hrem & Hb).
  - rewrite Hl.
    constructor;
      [exact (amount_is_new_document 6 0 (sample_contribution 100))|].
    constructor;
      [exact (amount_is_new_document 7 1 (sample_contribution 150))|].
    constructor.
  - exists r. rewrite Hrem, Hb, Hp, Hraised, Hg, Hl.
    split; [exact Hr|]. repeat split; vm_compute; reflexivity.
Defined.

(** One campaign and a single contribution without an amount: nothing is
    raised, and there is one backer. *)
Lemma contribution_without_amount_witness :
  exists r r',
    get_summary (Up None db_campaign) = Ok r
    /\ get_summary (Up None db_amountless) = Ok r'
    /\ raised r = VInt 0
    /\ raised r' = VFloat 0
    /\ backers r' = backers r + 1
    /\ remaining_supporters r = VInt 10
    /\ remaining_supporters r' = VInt 9.
Proof.
  destruct (contribution_without_amount None db_campaign db_amountless
              [] amountless [] 1000%float 10 [] [])
    as (r & r' & k & Hr & Hr' & Hraised & Hraised' & Hb & Hrem & Hrem').
  - unfold campaign_reads. rewrite campaigns_db_campaign.
    now rewrite campaign_goal_amount, campaign_max_supporters.
  - unfold db_amountless. now rewrite collection_insert_one_ne by done.
  - apply contributions_db_campaign.
  - unfold db_amountless.
    now rewrite collection_insert_one, contributions_db_campaign.
  - reflexivity.
  - constructor.
  - constructor.
  - exists r, r'.
    assert (Hk : k = 10).
    { assert (Hs : get_summary (Up None db_campaign)
                   = Ok (summary_of 1000 10 0 [])).
      { change 0%nat with (length (@nil document)).
        rewrite <- contributions_db_campaign at 1.
        apply get_summary_of; [|rewrite contributions_db_campaign; constructor].
        unfold campaign_reads. rewrite campaigns_db_campaign.
        now rewrite campaign_goal_amount, campaign_max_supporters. }
      rewrite Hs in Hr. injection Hr as <-. simpl in Hrem.
      now injection Hrem as <-. }
    subst k. rewrite Hrem', Hrem, Hraised, Hraised'.
    split; [exact Hr|]. split; [exact Hr'|].
    repeat split; try reflexivity. exact Hb.
Defined.

(** ** Sorting and the two listings *)

Section Sorting.

Lemma created_at_dated x t : get x "created_at" = VDate t -> created_at x = t.
Proof. unfold created_at. now intros ->. Qed.

Lemma newest_first_cons x l :
  newest_first (x :: l) <->
  newest_first l /\ Forall (fun y => created_at y <= created_at x) l.
Proof.
  unfold newest_first. split.
  - intros Hs. split; [now apply StronglySorted_inv in Hs|].
    now apply StronglySorted_inv in Hs.
  - intros [Hs Hall]. now constructor.
Qed.

(** Inserting a dated record into dated records that are newest first. *)
Lemma insert_desc_dated x l :
  (exists t, get x "created_at" = VDate t) ->
  Forall (fun y => exists t, get y "created_at" = VDate t) l ->
  newest_first l ->
  exists r,
    insert_desc (fun y => get y "created_at") x l = Ok r /\ r ≡ₚ x :: l /\ newest_first r.
Proof.
  intros [t Ht]. induction l as [|y l IH]; intros Hdated Hsorted.
  - exists [x]. repeat split; [reflexivity|]. repeat constructor.
  - apply Forall_cons in Hdated as [[u Hu] Hdated].
    apply newest_first_cons in Hsorted as [Hsorted Hy].
    simpl. rewrite Ht, Hu; simpl.
    destruct (t <? u) eqn:Hlt.
    + destruct (IH Hdated Hsorted) as (r & -> & Hperm & Hr).
      exists (y :: r). split; [reflexivity|]. split.
      * rewrite Hperm. apply Permutation_swap.
      * apply newest_first_cons. split; [exact Hr|].
        rewrite Hperm. constructor; [|exact Hy].
        rewrite (created_at_dated _ _ Ht), (created_at_dated _ _ Hu). lia.
    + exists (x :: y :: l). split; [reflexivity|]. split; [reflexivity|].
      apply newest_first_cons. split.
      * apply newest_first_cons. now split.
      * assert (Hyx : created_at y <= created_at x).
        { rewrite (created_at_dated _ _ Ht), (created_at_dated _ _ Hu).
          lia. }
        constructor; [exact Hyx|].
        eapply Forall_impl; [exact Hy|]. simpl. intros z Hz. lia.
Qed.

(** The sort succeeds on dated records, keeps every one of them, and
    leaves them newest first. *)
Lemma sort_desc_dated l :
  Forall (fun y => exists t, get y "created_at" = VDate t) l ->
  exists r, sort_desc (fun y => get y "created_at") l = Ok r /\ r ≡ₚ l /\ newest_first r.
Proof.
  induction l as [|x l IH]; intros Hdated.
  - exists []. repeat split; [reflexivity|]. constructor.
  - apply Forall_cons in Hdated as [Hx Hdated].
    destruct (IH Hdated) as (r & Hr & Hperm & Hsorted).
    simpl. rewrite Hr; simpl.
    destruct (insert_desc_dated x r Hx) as (r' & Hr' & Hperm' & Hsorted').
    + now rewrite Hperm.
    + exact Hsorted.
    + exists r'. split; [exact Hr'|]. split; [|exact Hsorted'].
      now rewrite Hperm', Hperm.
Qed.

Lemma mapM_total {A B} (f : A -> result B) l :
  Forall (fun x => exists y, f x = Ok y) l ->
  exists l', mapM f l = Ok l' /\ Forall2 (fun x y => f x = Ok y) l l'.
Proof.
  induction 1 as [|x l [y Hy] _ (l' & Hl' & Hall)]; simpl.
  - exists []. split; [reflexivity|constructor].
  - exists (y :: l'). rewrite Hy, Hl'. split; [reflexivity|].
    now constructor.
Qed.

(** Records that are newest first are shown newest first, when each
    output carries the creation time of its record. *)
Lemma shown_newest_first {B} (shows : document -> B -> Prop)
    (time : B -> Z) l outs :
  (forall x o, x ∈ l -> shows x o -> time o = created_at x) ->
  Forall2 shows l outs ->
  newest_first l ->
  StronglySorted (fun a b => time b <= time a) outs.
Proof.
  intros Htime Hall. induction Hall as [|x o l outs Hxo Hall IH];
    intros Hsorted; [constructor|].
  apply newest_first_cons in Hsorted as [Hsorted Hx].
  constructor.
  - apply IH; [|exact Hsorted].
    intros y p Hy. apply Htime. now right.
  - rewrite (Htime x o (list_elem_of_here _ _) Hxo).
    clear IH Hsorted.
    induction Hall as [|y p l outs Hyp Hall IH]; constructor.
    + apply Forall_cons in Hx as [Hy _].
      rewrite (Htime y p) by (try exact Hyp; right; left). exact Hy.
    + apply IH.
      * intros z q Hz. apply Htime.
        apply elem_of_cons in Hz as [->|Hz]; [left|right; now right].
      * now apply Forall_cons in Hx as [_ Hx].
Qed.

Lemma slice_to_take {A} limit (l : list A) :
  slice_to limit l
  = take (Z.to_nat (if 0 <=? limit then limit
                    else Z.of_nat (length l) + limit)) l.
Proof. unfold slice_to. now destruct (0 <=? limit). Qed.

End Sorting.

Section Listings.
Context `{!Runtime}.

Lemma stored_campaign_dated x :
  stored_campaign x -> exists t, get x "created_at" = VDate t.
Proof.
  intros (now & oid & p & ->). exists now. apply new_document_created_at.
Qed.

Lemma stored_contribution_dated x :
  stored_contribution x -> exists t, get x "created_at" = VDate t.
Proof.
  intros (now & oid & p & -> & _). exists now.
  apply new_document_created_at.
Qed.

Lemma stored_campaign_out x :
  stored_campaign x ->
  exists o, campaign_out x = Ok o
            /\ CampaignOut.created_at o = created_at x
            /\ CampaignOut.id o = py_str (get x "_id").
Proof.
  intros (now & oid & p & ->). eexists. split.
  - apply campaign_out_new_document.
  - simpl. split.
    + symmetry. apply created_at_dated, new_document_created_at.
    + now rewrite new_document_id.
Qed.

Lemma stored_contribution_out x :
  stored_contribution x ->
  exists o, contribution_out x = Ok o
            /\ ContributionOut.created_at o = created_at x
            /\ ContributionOut.id o = py_str (get x "_id").
Proof.
  intros (now & oid & p & -> & [e He]). eexists. split.
  - apply (contribution_out_new_document _ _ _ _ He).
  - simpl. split.
    + symmetry. apply created_at_dated, new_document_created_at.
    + now rewrite new_document_id.
Qed.

(** What [list_campaigns] computes on stored campaigns. *)
Lemma list_campaigns_stored nm d :
  Forall stored_campaign (collection "campaign" d) ->
  exists items outs,
    sort_desc (fun x => get x "created_at") (collection "campaign" d)
    = Ok items
    /\ items ≡ₚ collection "campaign" d
    /\ newest_first items
    /\ list_campaigns (Up nm d) = Ok outs
    /\ Forall2 (fun x o => campaign_out x = Ok o) items outs.
Proof.
  intros Hstored.
  destruct (sort_desc_dated (collection "campaign" d))
    as (items & Hsort & Hperm & Hsorted).
  { eapply Forall_impl; [exact Hstored|]. apply stored_campaign_dated. }
  destruct (mapM_total campaign_out items) as (outs & Houts & Hall).
  { rewrite Hperm. eapply Forall_impl; [exact Hstored|].
    intros x Hx. destruct (stored_campaign_out x Hx) as (o & Ho & _).
    now exists o. }
  exists items, outs. repeat split; try assumption.
  unfold list_campaigns. rewrite get_documents_up; simpl.
  now rewrite Hsort.
Qed.

(** What [list_contributions] computes on stored contributions: the
    sorted records are cut after [k] of them, [k] being the limit, or
    the number of records less the limit's magnitude when it is
    negative. *)
Lemma list_contributions_stored nm d limit :
  Forall stored_contribution (collection "contribution" d) ->
  let k := Z.to_nat (if 0 <=? limit then limit
                     else Z.of_nat (length (collection "contribution" d))
                          + limit) in
  exists items outs,
    sort_desc (fun x => get x "created_at") (collection "contribution" d)
    = Ok items
    /\ items ≡ₚ collection "contribution" d
    /\ newest_first items
    /\ list_contributions limit (Up nm d) = Ok outs
    /\ Forall2 (fun x o => contribution_out x = Ok o) (take k items) outs.
Proof.
  intros Hstored k.
  destruct (sort_desc_dated (collection "contribution" d))
    as (items & Hsort & Hperm & Hsorted).
  { eapply Forall_impl; [exact Hstored|].
    apply stored_contribution_dated. }
  assert (Hslice : slice_to limit items = take k items).
  { rewrite slice_to_take. unfold k.
    now rewrite (Permutation_length Hperm). }
  destruct (mapM_total contribution_out (take k items))
    as (outs & Houts & Hall).
  { apply Forall_take. rewrite Hperm.
    eapply Forall_impl; [exact Hstored|].
    intros x Hx. destruct (stored_contribution_out x Hx) as (o & Ho & _).
    now exists o. }
  exists items, outs. repeat split; try assumption.
  unfold list_contributions. rewrite get_documents_up; simpl.
  rewrite Hsort; simpl. now rewrite Hslice.
Qed.

(** Of records that are newest first, none among the first [k] is
    older than one behind them. *)
Lemma newest_first_take_drop k items x y :
  newest_first items ->
  x ∈ take k items -> y ∈ drop k items -> created_at y <= created_at x.
Proof.
  intros Hsorted Hx Hy. rewrite <- (take_drop k items) in Hsorted.
  exact (StronglySorted_app_1_elem_of _ _ _ _ _ Hsorted Hx Hy).
Qed.

Lemma newest_first_take k items :
  newest_first items -> newest_first (take k items).
Proof.
  intros Hsorted. rewrite <- (take_drop k items) in Hsorted.
  exact (StronglySorted_app_1_l _ _ _ Hsorted).
Qed.

(** C5, as the code has it.  Over records as the create operations
    store them, the listing of campaigns shows every record, and the
    listing of contributions with a limit that is not negative shows
    [min(limit, number stored)] of them (200 being the limit when none
    is given); both run from the newest to the oldest creation time,
    and no contribution left out is newer than one that is shown. *)
Theorem listings_newest_first nm d :
  Forall stored_campaign (collection "campaign" d) ->
  Forall stored_contribution (collection "contribution" d) ->
  (exists items outs,
     list_campaigns (Up nm d) = Ok outs
     /\ items ≡ₚ collection "campaign" d
     /\ Forall2 (fun x o => campaign_out x = Ok o) items outs
     /\ length outs = length (collection "campaign" d)
     /\ StronglySorted
          (fun a b => CampaignOut.created_at b <= CampaignOut.created_at a)
          outs)
  /\ (forall limit, 0 <= limit ->
      exists items rest outs,
        list_contributions limit (Up nm d) = Ok outs
        /\ items ++ rest ≡ₚ collection "contribution" d
        /\ Forall2 (fun x o => contribution_out x = Ok o) items outs
        /\ Z.of_nat (length outs)
           = Z.min limit
               (Z.of_nat (length (collection "contribution" d)))
        /\ StronglySorted
             (fun a b => ContributionOut.created_at b
                         <= ContributionOut.created_at a) outs
        /\ (forall x y, x ∈ items -> y ∈ rest ->
                        created_at y <= created_at x))
  /\ get_contributions None (Up nm d) = list_contributions 200 (Up nm d).
Proof.
  intros Hcamp Hcontr. split; [|split; [|reflexivity]].
  - destruct (list_campaigns_stored nm d Hcamp)
      as (items & outs & _ & Hperm & Hsorted & Hlist & Hall).
    exists items, outs. repeat split; try assumption.
    + rewrite <- (Forall2_length _ _ _ Hall).
      exact (Permutation_length Hperm).
    + apply (shown_newest_first (fun x o => campaign_out x = Ok o)
               CampaignOut.created_at items outs);
        [|exact Hall|exact Hsorted].
      intros x o Hx Ho.
      assert (Hsx : stored_campaign x).
      { rewrite Hperm in Hx.
        exact (proj1 (Forall_forall _ _) Hcamp x Hx). }
      destruct (stored_campaign_out x Hsx) as (o' & Ho' & Ht & _).
      congruence.
  - intros limit Hlimit.
    destruct (list_contributions_stored nm d limit Hcontr)
      as (items & outs & _ & Hperm & Hsorted & Hlist & Hall).
    set (k := Z.to_nat _) in Hall.
    exists (take k items), (drop k items), outs.
    repeat split; try assumption.
    + now rewrite take_drop.
    + rewrite <- (Forall2_length _ _ _ Hall), length_take,
        (Permutation_length Hperm).
      unfold k. rewrite (proj2 (Z.leb_le 0 limit) Hlimit). lia.
    + apply (shown_newest_first (fun x o => contribution_out x = Ok o)
               ContributionOut.created_at (take k items) outs);
        [|exact Hall|now apply newest_first_take].
      intros x o Hx Ho.
      assert (Hsx : stored_contribution x).
      { apply elem_of_take in Hx as (i & Hx & _).
        apply list_elem_of_lookup_2 in Hx. rewrite Hperm in Hx.
        exact (proj1 (Forall_forall _ _) Hcontr x Hx). }
      destruct (stored_contribution_out x Hsx) as (o' & Ho' & Ht & _).
      congruence.
    + intros x y. now apply newest_first_take_drop.
Qed.

(** C9. Over stored contributions, the listing with limit [0] is empty,
    and with a negative limit it succeeds: of the records in order from
    the newest, it leaves out the last [-limit] ones (all of them when
    there are fewer), none of which is newer than one that is shown. *)
Theorem listing_with_nonpositive_limit nm d :
  Forall stored_contribution (collection "contribution" d) ->
  list_contributions 0 (Up nm d) = Ok []
  /\ (forall limit, limit < 0 ->
      exists items rest outs,
        list_contributions limit (Up nm d) = Ok outs
        /\ items ++ rest ≡ₚ collection "contribution" d
        /\ newest_first (items ++ rest)
        /\ Forall2 (fun x o => contribution_out x = Ok o) items outs
        /\ Z.of_nat (length rest)
           = Z.min (- limit)
               (Z.of_nat (length (collection "contribution" d)))
        /\ (forall x y, x ∈ items -> y ∈ rest ->
                        created_at y <= created_at x)).
Proof.
  intros Hcontr. split.
  - destruct (list_contributions_stored nm d 0 Hcontr)
      as (items & outs & _ & _ & _ & Hlist & Hall).
    simpl in Hall. rewrite take_0 in Hall.
    apply Forall2_nil_inv_l in Hall as ->. exact Hlist.
  - intros limit Hlimit.
    destruct (list_contributions_stored nm d limit Hcontr)
      as (items & outs & _ & Hperm & Hsorted & Hlist & Hall).
    set (k := Z.to_nat _) in Hall.
    exists (take k items), (drop k items), outs.
    repeat split; try assumption.
    + now rewrite take_drop.
    + now rewrite take_drop.
    + rewrite length_drop, (Permutation_length Hperm). unfold k.
      rewrite (proj2 (Z.leb_gt 0 limit) Hlimit). lia.
    + intros x y. now apply newest_first_take_drop.
Qed.

End Listings.

(** ** The stores the routes lead to *)

Section Reachable.
Context `{!Runtime}.

(** The address check accepts what it answers with. *)
Hypothesis validate_email_stable :
  forall e e', validate_email e = Some e' -> is_Some (validate_email e').

Lemma validate_contribution_ok body p :
  Schemas.validate_contribution body = Ok p ->
  is_Some (validate_email (Contribution.email p))
  /\ Schemas.gt0 (Contribution.amount p) = true.
Proof.
  unfold Schemas.validate_contribution, Schemas.contribution_errors.
  destruct (ContributionBody.name body) as [n|],
    (ContributionBody.email body) as [e|],
    (ContributionBody.amount body) as [a|]; simpl;
    try discriminate;
    try (destruct (_ ++ _); discriminate);
    try (destruct (validate_email e); simpl; discriminate).
  destruct (validate_email e) as [e'|] eqn:He; simpl; [|discriminate].
  destruct (Schemas.gt0 a) eqn:Ha; simpl; [|discriminate].
  intros [= <-]; simpl. split; [|exact Ha].
  exact (validate_email_stable _ _ He).
Qed.

(** Every store the routes lead to answers, holds at most one
    campaign, and holds its records as the adapter stores them. *)
Lemma reachable_stored s :
  reachable s ->
  exists nm d,
    s = Up nm d
    /\ (length (collection "campaign" d) <= 1)%nat
    /\ Forall stored_campaign (collection "campaign" d)
    /\ Forall stored_contribution (collection "contribution" d).
Proof.
  induction 1 as [nm|s now body _ (nm & d & -> & Hone & Hcamp & Hcontr)
                 |s now body _ (nm & d & -> & Hone & Hcamp & Hcontr)].
  - exists nm, empty_db. split; [reflexivity|].
    rewrite !collection_empty.
    repeat split; simpl; [lia|constructor|constructor].
  - destruct (Schemas.validate_campaign body) as [p|e] eqn:Hv.
    + rewrite (post_campaigns_valid _ _ _ _ Hv), create_campaign_up.
      destruct (collection "campaign" d) as [|c rest] eqn:Hc; simpl.
      * eexists nm, _. split; [reflexivity|].
        rewrite collection_insert_one, Hc,
          collection_insert_one_ne by done.
        repeat split; simpl; [lia| |exact Hcontr].
        constructor; [|constructor]. now exists now, (next_oid d), p.
      * exists nm, d. rewrite Hc. now repeat split.
    + rewrite (post_campaigns_invalid _ _ _ _ Hv). now exists nm, d.
  - destruct (Schemas.validate_contribution body) as [p|e] eqn:Hv.
    + rewrite (post_contributions_valid _ _ _ _ Hv).
      destruct (validate_contribution_ok _ _ Hv) as [He Ha].
      unfold add_contribution. rewrite (gt0_not_le0 _ Ha).
      unfold hbind, ret; simpl.
      eexists nm, _. split; [reflexivity|].
      rewrite collection_insert_one, collection_insert_one_ne by done.
      repeat split; [exact Hone|exact Hcamp|].
      apply Forall_app. split; [exact Hcontr|].
      constructor; [|constructor]. now exists now, (next_oid d), p.
    + rewrite (post_contributions_invalid _ _ _ _ Hv). now exists nm, d.
Qed.

End Reachable.

(** ** The listings on the sample stores *)

Lemma contributions_db_three :
  collection "contribution" db_three
  = [new_document 6 0%N (sample_contribution 10);
     new_document 9 1%N (sample_contribution 20);
     new_document 7 2%N (sample_contribution 30)].
Proof. unfold db_three. now rewrite !collection_insert_one. Qed.

Lemma contributions_db_five :
  collection "contribution" db_five
  = [new_document 6 0%N (sample_contribution 10);
     new_document 9 1%N (sample_contribution 20);
     new_document 7 2%N (sample_contribution 30);
     new_document 8 3%N (sample_contribution 40);
     new_document 5 4%N (sample_contribution 50)].
Proof.
  unfold db_five. now rewrite !collection_insert_one, contributions_db_three.
Qed.

Lemma stored_sample_contribution now oid a :
  stored_contribution (new_document now oid (sample_contribution a)).
Proof.
  exists now, oid, (sample_contribution a). split; [reflexivity|].
  now exists "ada@example.org".
Qed.

(** The limit 3 on five contributions: the three newest, in order. *)
Lemma listings_newest_first_witness :
  exists outs,
    list_contributions 3 (Up None db_five) = Ok outs
    /\ ContributionOut.created_at <$> outs = [9; 8; 7]
    /\ ContributionOut.amount <$> outs = [20%float; 40%float; 30%float]
    /\ StronglySorted
         (fun a b => ContributionOut.created_at b
                     <= ContributionOut.created_at a) outs.
Proof.
  destruct (listings_newest_first None db_five) as (_ & Hcontr & _).
  - unfold db_five, db_three.
    rewrite !collection_insert_one_ne by done. constructor.
  - rewrite contributions_db_five.
    repeat (constructor; [apply stored_sample_contribution|]). constructor.
  - destruct (Hcontr 3) as (items & rest & outs & Hlist & _ & _ & _ & Hs & _);
      [lia|].
    exists outs. split; [exact Hlist|].
    split; [|split; [|exact Hs]].
    + vm_compute in Hlist. injection Hlist as <-. reflexivity.
    + vm_compute in Hlist. injection Hlist as <-. reflexivity.
Defined.

(** C5 as stated fails at a negative limit: with three contributions
    stored and the limit [-1] the listing shows two of them, not
    [min(limit, number stored)]. *)
Lemma negative_limit_count :
  exists outs,
    list_contributions (-1) (Up None db_three) = Ok outs
    /\ length (collection "contribution" db_three) = 3%nat
    /\ length outs = 2%nat
    /\ Z.min (-1) 3 = -1.
Proof.
  eexists. split; [vm_compute; reflexivity|].
  split; [now rewrite contributions_db_three|]. split; reflexivity.
Qed.

(** The limits [0] and [-1] on three contributions made at the times 6, 9
    and 7: nothing, and the two newest. *)
Lemma listing_with_nonpositive_limit_witness :
  list_contributions 0 (Up None db_three) = Ok []
  /\ (exists outs,
        list_contributions (-1) (Up None db_three) = Ok outs
        /\ ContributionOut.created_at <$> outs = [9; 7]).
Proof.
  destruct (listing_with_nonpositive_limit None db_three) as [Hzero Hneg].
  - rewrite contributions_db_three.
    repeat (constructor; [apply stored_sample_contribution|]). constructor.
  - split; [exact Hzero|].
    destruct (Hneg (-1)) as (items & rest & outs & Hlist & _); [lia|].
    exists outs. split; [exact Hlist|].
    vm_compute in Hlist. injection Hlist as <-. reflexivity.
Defined.

(** ** What the schemas accept *)


Section Acceptance.
Context `{!Runtime}.



End Acceptance.

Section ExampleAcceptance.



End ExampleAcceptance.

(** ** What the routes keep *)

Section Invariants.
Context `{!Runtime}.

Lemma validate_campaign_ok body p :
  Schemas.validate_campaign body = Ok p ->
  Schemas.gt0 (Campaign.goal_amount p) = true
  /\ from_option Schemas.gt0_int true (Campaign.max_supporters p) = true.
Proof.
  unfold Schemas.validate_campaign, Schemas.campaign_errors.
  destruct body as [[t|] [d|] [g|] ms dl]; simpl; try discriminate.
  destruct (Schemas.gt0 g) eqn:Hg; simpl; [|discriminate].
  destruct ms as [[m|]|]; simpl.
  - destruct (Schemas.gt0_int m) eqn:Hm; simpl; [|discriminate].
    intros [= <-]. now split.
  - intros [= <-]. now split.
  - intros [= <-]. now split.
Qed.

Lemma validate_contribution_amount body p :
  Schemas.validate_contribution body = Ok p ->
  Schemas.gt0 (Contribution.amount p) = true.
Proof.
  unfold Schemas.validate_contribution, Schemas.contribution_errors.
  destruct body as [[n|] [e|] [a|] msg pub]; simpl;
    try discriminate;
    try (destruct (validate_email e); simpl; discriminate).
  destruct (validate_email e) as [e'|]; simpl; [|discriminate].
  destruct (Schemas.gt0 a) eqn:Ha; simpl; [|discriminate].
  now intros [= <-].
Qed.

(** What one call of a create route does to a store that answers. *)
Lemma post_campaigns_step now body nm d :
  snd (post_campaigns now body (Up nm d)) = Up nm d
  \/ exists p,
       Schemas.validate_campaign body = Ok p
       /\ collection "campaign" d = []
       /\ snd (post_campaigns now body (Up nm d))
          = Up nm (insert_one "campaign"
                     (new_document now (next_oid d) p) d).
Proof.
  destruct (Schemas.validate_campaign body) as [p|e] eqn:Hv.
  - rewrite (post_campaigns_valid _ _ _ _ Hv), create_campaign_up.
    destruct (collection "campaign" d) eqn:Hc; [|now left].
    right. now exists p.
  - left. now rewrite (post_campaigns_invalid _ _ _ _ Hv).
Qed.

Lemma post_contributions_step now body nm d :
  snd (post_contributions now body (Up nm d)) = Up nm d
  \/ exists p,
       Schemas.validate_contribution body = Ok p
       /\ snd (post_contributions now body (Up nm d))
          = Up nm (insert_one "contribution"
                     (new_document now (next_oid d) p) d).
Proof.
  destruct (Schemas.validate_contribution body) as [p|e] eqn:Hv.
  - right. exists p. split; [reflexivity|].
    rewrite (post_contributions_valid _ _ _ _ Hv).
    unfold add_contribution.
    now rewrite (gt0_not_le0 _ (validate_contribution_amount _ _ Hv)).
  - left. now rewrite (post_contributions_invalid _ _ _ _ Hv).
Qed.

Lemma reachable_shape s :
  reachable s ->
  exists nm d,
    s = Up nm d
    /\ (length (collection "campaign" d) <= 1)%nat
    /\ Forall api_campaign (collection "campaign" d)
    /\ Forall api_contribution (collection "contribution" d).
Proof.
  induction 1 as [nm|s now body _ (nm & d & -> & Hone & Hcamp & Hcontr)
                 |s now body _ (nm & d & -> & Hone & Hcamp & Hcontr)].
  - exists nm, empty_db. split; [reflexivity|].
    rewrite !collection_empty.
    repeat split; simpl; [lia|constructor|constructor].
  - destruct (post_campaigns_step now body nm d)
      as [->|(p & Hv & Hc & ->)]; [now exists nm, d|].
    eexists nm, _. split; [reflexivity|].
    rewrite collection_insert_one, Hc, collection_insert_one_ne by done.
    repeat split; simpl; [lia| |exact Hcontr].
    constructor; [|constructor].
    destruct (validate_campaign_ok _ _ Hv) as [Hg Hm].
    now exists now, (next_oid d), p.
  - destruct (post_contributions_step now body nm d)
      as [->|(p & Hv & ->)]; [now exists nm, d|].
    eexists nm, _. split; [reflexivity|].
    rewrite collection_insert_one, collection_insert_one_ne by done.
    repeat split; [exact Hone|exact Hcamp|].
    apply Forall_app. split; [exact Hcontr|].
    constructor; [|constructor].
    exists now, (next_oid d), p. split; [reflexivity|].
    exact (validate_contribution_amount _ _ Hv).
Qed.

(** X5. However the two create routes are called, in whatever order and
    with whatever bodies, the store they lead to from an empty one
    holds at most one campaign. *)
Theorem routes_keep_one_campaign s :
  reachable s ->
  exists nm d,
    s = Up nm d /\ (length (collection "campaign" d) <= 1)%nat.
Proof.
  intros Hs. destruct (reachable_shape s Hs) as (nm & d & -> & Hone & _).
  now exists nm, d.
Qed.

(** X6. Whatever the routes have stored passed its schema: every
    contribution in a store they lead to carries an amount above zero,
    and every campaign a goal above zero and a cap on supporters that is
    [None] or above zero. *)
Theorem routes_store_valid_records s :
  reachable s ->
  exists nm d,
    s = Up nm d
    /\ Forall (fun x => exists a, get x "amount" = VFloat a
                                  /\ (0 <? a)%float = true
                                  /\ is_nan a = false)
         (collection "contribution" d)
    /\ Forall (fun c => (exists g, get c "goal_amount" = VFloat g
                                   /\ (0 <? g)%float = true)
                        /\ (get c "max_supporters" = VNone
                            \/ exists m, get c "max_supporters" = VInt m
                                         /\ 0 < m))
         (collection "campaign" d).
Proof.
  intros Hs.
  destruct (reachable_shape s Hs) as (nm & d & -> & _ & Hcamp & Hcontr).
  exists nm, d. split; [reflexivity|]. split.
  - eapply Forall_impl; [exact Hcontr|].
    intros x (now & oid & p & -> & Ha).
    exists (Contribution.amount p).
    split; [exact (contribution_amount now oid p VNone)|].
    split; [exact Ha|].
    destruct (is_nan (Contribution.amount p)) eqn:Hn; [|reflexivity].
    assert (Hf : Schemas.gt0 (Contribution.amount p) = false)
      by (apply gt0_false_iff; now right).
    congruence.
  - eapply Forall_impl; [exact Hcamp|].
    intros c (now & oid & p & -> & Hg & Hm). split.
    + exists (Campaign.goal_amount p).
      split; [exact (campaign_goal_amount now oid p VNone)|exact Hg].
    + pose proof (campaign_max_supporters now oid p VNone) as Hcap.
      change (get_or (new_document now oid p) "max_supporters" VNone)
        with (get (new_document now oid p) "max_supporters") in Hcap.
      rewrite Hcap.
      destruct (Campaign.max_supporters p) as [m|]; simpl in *;
        [right|now left].
      exists m. split; [reflexivity|]. now apply Z.ltb_lt.
Qed.

(** X7. A create route never removes or changes a stored record, and
    never writes to the other collection: what a collection holds after
    the call is what it held before, followed by at most one new record,
    and by none unless it is the route's own collection. *)
Theorem routes_append_only now nm d :
  (forall body, exists d',
     snd (post_campaigns now body (Up nm d)) = Up nm d'
     /\ forall coll, exists new,
          collection coll d' = collection coll d ++ new
          /\ (length new <= 1)%nat
          /\ (coll <> "campaign" -> new = []))
  /\ (forall body, exists d',
        snd (post_contributions now body (Up nm d)) = Up nm d'
        /\ forall coll, exists new,
             collection coll d' = collection coll d ++ new
             /\ (length new <= 1)%nat
             /\ (coll <> "contribution" -> new = [])).
Proof.
  split; intros body.
  - destruct (post_campaigns_step now body nm d)
      as [->|(p & _ & _ & ->)].
    + exists d. split; [reflexivity|]. intros coll. exists [].
      rewrite app_nil_r. repeat split; simpl; lia.
    + eexists. split; [reflexivity|]. intros coll.
      destruct (decide (coll = "campaign")) as [->|Hne].
      * eexists. rewrite collection_insert_one.
        split; [reflexivity|]. split; [simpl; lia|congruence].
      * exists []. rewrite collection_insert_one_ne, app_nil_r by done.
        repeat split; simpl; lia.
  - destruct (post_contributions_step now body nm d)
      as [->|(p & _ & ->)].
    + exists d. split; [reflexivity|]. intros coll. exists [].
      rewrite app_nil_r. repeat split; simpl; lia.
    + eexists. split; [reflexivity|]. intros coll.
      destruct (decide (coll = "contribution")) as [->|Hne].
      * eexists. rewrite collection_insert_one.
        split; [reflexivity|]. split; [simpl; lia|congruence].
      * exists []. rewrite collection_insert_one_ne, app_nil_r by done.
        repeat split; simpl; lia.
Qed.

End Invariants.

(** ** A record that was created is read back *)

Section RoundTrips.
Context `{!Runtime}.

Lemma Forall2_elem_of_l {A B} (R : A -> B -> Prop) l k x :
  Forall2 R l k -> x ∈ l -> exists y, y ∈ k /\ R x y.
Proof.
  intros Hall Hx. apply list_elem_of_lookup_1 in Hx as [i Hi].
  destruct (Forall2_lookup_l _ _ _ _ _ Hall Hi) as (y & Hy & Hxy).
  exists y. split; [|exact Hxy]. now apply list_elem_of_lookup_2 in Hy.
Qed.

(** X8. A campaign created on a store without one is what the listing
    of campaigns then returns, alone: with the id that the creation
    answered, the fields of the payload, and the time of its creation. *)
Theorem created_campaign_is_listed now (p : Campaign.t) nm d :
  collection "campaign" d = [] ->
  exists id s',
    create_campaign now p (Up nm d) = (Ok id, s')
    /\ list_campaigns s'
       = Ok [ {| CampaignOut.id := id;
                 CampaignOut.title := Campaign.title p;
                 CampaignOut.description := Campaign.description p;
                 CampaignOut.goal_amount := Campaign.goal_amount p;
                 CampaignOut.max_supporters := Campaign.max_supporters p;
                 CampaignOut.deadline := Campaign.deadline p;
                 CampaignOut.created_at := now |} ].
Proof.
  intros Hc. do 2 eexists. split.
  - rewrite create_campaign_up, Hc. reflexivity.
  - unfold list_campaigns. rewrite get_documents_up; simpl.
    rewrite collection_insert_one, Hc; simpl.
    now rewrite campaign_out_new_document.
Qed.

(** X9. A contribution that the route accepted is in the listing of
    contributions whenever the limit exceeds the number stored before
    it: under the id that the creation answered, with the fields of the
    payload and the time of its creation, the listing being one longer
    than the store was. *)
Theorem created_contribution_is_listed now body p e nm d limit :
  Schemas.validate_contribution body = Ok p ->
  validate_email (Contribution.email p) = Some e ->
  Forall stored_contribution (collection "contribution" d) ->
  Z.of_nat (length (collection "contribution" d)) < limit ->
  exists id s' outs,
    post_contributions now body (Up nm d) = (Ok id, s')
    /\ list_contributions limit s' = Ok outs
    /\ length outs = S (length (collection "contribution" d))
    /\ {| ContributionOut.id := id;
          ContributionOut.name := Contribution.name p;
          ContributionOut.email := e;
          ContributionOut.amount := Contribution.amount p;
          ContributionOut.message := Contribution.message p;
          ContributionOut.is_public := Contribution.is_public p;
          ContributionOut.created_at := now |} ∈ outs.
Proof.
  intros Hv He Hstored Hlimit.
  set (x := new_document now (next_oid d) p).
  set (d' := insert_one "contribution" x d).
  assert (Hpost : post_contributions now body (Up nm d)
                  = (Ok (py_str (VOid (next_oid d))), Up nm d')).
  { rewrite (post_contributions_valid _ _ _ _ Hv).
    unfold add_contribution.
    now rewrite (gt0_not_le0 _ (validate_contribution_amount _ _ Hv)). }
  assert (Hcoll : collection "contribution" d'
                  = collection "contribution" d ++ [x]).
  { apply collection_insert_one. }
  assert (Hstored' : Forall stored_contribution
                       (collection "contribution" d')).
  { rewrite Hcoll. apply Forall_app. split; [exact Hstored|].
    constructor; [|constructor].
    exists now, (next_oid d), p. split; [reflexivity|]. now exists e. }
  destruct (list_contributions_stored nm d' limit Hstored')
    as (items & outs & _ & Hperm & _ & Hlist & Hall).
  assert (Hlen : length items = S (length (collection "contribution" d))).
  { rewrite (Permutation_length Hperm), Hcoll, length_app; simpl. lia. }
  rewrite take_ge in Hall.
  2:{ rewrite Hlen, Hcoll, length_app; simpl.
      destruct (0 <=? limit) eqn:H0; [|apply Z.leb_gt in H0]; lia. }
  exists (py_str (VOid (next_oid d))), (Up nm d'), outs.
  split; [exact Hpost|]. split; [exact Hlist|]. split.
  - now rewrite <- (Forall2_length _ _ _ Hall).
  - assert (Hx : x ∈ items).
    { rewrite Hperm, Hcoll. apply elem_of_app. right. now left. }
    destruct (Forall2_elem_of_l _ _ _ _ Hall Hx) as (o & Ho & Hxo).
    unfold x in Hxo.
    rewrite (contribution_out_new_document _ _ _ _ He) in Hxo.
    now injection Hxo as <-.
Qed.

End RoundTrips.

(** ** The summary along the routes *)

Section SummaryAlongRoutes.
Context `{!Runtime}.

Lemma total_snoc amounts a :
  total (amounts ++ [a]) = (total amounts + a)%float.
Proof. unfold total. now rewrite fold_left_app. Qed.

Lemma py_sum_snoc amounts a :
  py_sum (amounts ++ [a]) = VFloat (total amounts + a)%float.
Proof.
  rewrite <- total_snoc. unfold py_sum, total.
  now destruct amounts.
Qed.

Lemma campaign_reads_insert_contribution d x g m :
  campaign_reads d g m ->
  campaign_reads (insert_one "contribution" x d) g m.
Proof.
  unfold campaign_reads. now rewrite collection_insert_one_ne by done.
Qed.

(** X10. A contribution that the route accepted moves the summary by
    itself alone: the goal stays, there is one backer more, the amount
    is added to what was raised, and the remaining supporters go down
    by one unless none was left. *)
Theorem contribution_moves_summary now body p nm d g m amounts :
  Schemas.validate_contribution body = Ok p ->
  campaign_reads d g m ->
  Forall2 amount_is (collection "contribution" d) amounts ->
  exists id s' r r' k,
    post_contributions now body (Up nm d) = (Ok id, s')
    /\ get_summary (Up nm d) = Ok r
    /\ get_summary s' = Ok r'
    /\ goal r' = goal r
    /\ backers r' = backers r + 1
    /\ raised r' = VFloat (total amounts + Contribution.amount p)%float
    /\ remaining_supporters r = VInt k
    /\ remaining_supporters r' = VInt (Z.max 0 (k - 1)).
Proof.
  intros Hv Hc Ha.
  set (x := new_document now (next_oid d) p).
  set (d' := insert_one "contribution" x d).
  assert (Hcoll : collection "contribution" d'
                  = collection "contribution" d ++ [x])
    by apply collection_insert_one.
  exists (py_str (VOid (next_oid d))), (Up nm d'),
    (summary_of g m (length (collection "contribution" d)) amounts),
    (summary_of g m (length (collection "contribution" d'))
       (amounts ++ [Contribution.amount p])),
    (Z.max 0 (m - Z.of_nat (length (collection "contribution" d)))).
  split; [|split; [|split]].
  - rewrite (post_contributions_valid _ _ _ _ Hv).
    unfold add_contribution.
    now rewrite (gt0_not_le0 _ (validate_contribution_amount _ _ Hv)).
  - now apply get_summary_of.
  - apply get_summary_of.
    + now apply campaign_reads_insert_contribution.
    + rewrite Hcoll. apply Forall2_app; [exact Ha|].
      constructor; [apply amount_is_new_document|constructor].
  - simpl. rewrite Hcoll, length_app, py_sum_snoc; simpl.
    repeat split; try reflexivity; try lia. f_equal. lia.
Qed.

(** X11. A campaign sent with [max_supporters] set to [null] is
    accepted and stored without a cap, and from then on the summary
    raises a [TypeError] where it subtracts the number of backers from
    the cap. *)
Theorem uncapped_campaign_breaks_summary now body p nm d amounts :
  Schemas.validate_campaign body = Ok p ->
  CampaignBody.max_supporters body = Some None ->
  collection "campaign" d = [] ->
  Forall2 amount_is (collection "contribution" d) amounts ->
  exists id s',
    post_campaigns now body (Up nm d) = (Ok id, s')
    /\ get_summary s' = Raise TypeError.
Proof.
  intros Hv Hnull Hc Ha.
  assert (Hcap : Campaign.max_supporters p = None).
  { unfold Schemas.validate_campaign in Hv.
    destruct (Schemas.campaign_errors body); [|discriminate].
    destruct (CampaignBody.title body), (CampaignBody.description body),
      (CampaignBody.goal_amount body); try discriminate.
    injection Hv as <-. simpl. now rewrite Hnull. }
  do 2 eexists. split.
  - rewrite (post_campaigns_valid _ _ _ _ Hv), create_campaign_up, Hc.
    reflexivity.
  - apply (summary_without_cap _ _ (new_document now (next_oid d) p) []
             (Campaign.goal_amount p) amounts).
    + now rewrite collection_insert_one, Hc.
    + now rewrite campaign_goal_amount.
    + now rewrite campaign_max_supporters, Hcap.
    + now rewrite collection_insert_one_ne by done.
Qed.

Lemma api_contributions_read l :
  Forall api_contribution l -> exists amounts, Forall2 amount_is l amounts.
Proof.
  induction 1 as [|x l (now & oid & p & -> & _) _ [amounts IH]].
  - exists []. constructor.
  - exists (Contribution.amount p :: amounts).
    constructor; [apply amount_is_new_document|exact IH].
Qed.

(** X12. On every store the create routes lead to, the summary either
    succeeds or raises the [TypeError] of a campaign without a cap, and
    nothing else: when it succeeds the goal is above zero, so the
    percentage is the rounded float and never the integer [0] of the
    guard, the backers are the contributions stored, and the remaining
    supporters are an integer that is not negative. *)
Theorem summary_on_reachable s :
  reachable s ->
  exists nm d,
    s = Up nm d
    /\ ((exists c rest,
           collection "campaign" d = c :: rest
           /\ get c "max_supporters" = VNone
           /\ get_summary s = Raise TypeError)
        \/ (exists r q k,
              get_summary s = Ok r
              /\ (0 <? goal r)%float = true
              /\ percent r = VFloat q
              /\ backers r
                 = Z.of_nat (length (collection "contribution" d))
              /\ remaining_supporters r = VInt k
              /\ 0 <= k)).
Proof.
  intros Hs.
  destruct (reachable_shape s Hs) as (nm & d & -> & _ & Hcamp & Hcontr).
  exists nm, d. split; [reflexivity|].
  destruct (api_contributions_read _ Hcontr) as [amounts Ha].
  assert (Hok : forall g m,
            campaign_reads d g m -> (0 <? g)%float = true ->
            exists r q k,
              get_summary (Up nm d) = Ok r
              /\ (0 <? goal r)%float = true
              /\ percent r = VFloat q
              /\ backers r
                 = Z.of_nat (length (collection "contribution" d))
              /\ remaining_supporters r = VInt k
              /\ 0 <= k).
  { intros g m Hreads Hg. do 3 eexists.
    split; [exact (get_summary_of _ _ _ _ _ Hreads Ha)|].
    simpl. rewrite Hg. repeat split; try exact Hg. lia. }
  destruct (collection "campaign" d) as [|c rest] eqn:Hc.
  - right. apply (Hok 100000%float 100); [|reflexivity].
    unfold campaign_reads. rewrite Hc. now split.
  - apply Forall_cons in Hcamp as [(now & oid & p & -> & Hg & Hm) _].
    destruct (Campaign.max_supporters p) as [m|] eqn:Hcap.
    + right. apply (Hok (Campaign.goal_amount p) m); [|exact Hg].
      unfold campaign_reads. rewrite Hc.
      now rewrite campaign_goal_amount, campaign_max_supporters, Hcap.
    + left. exists (new_document now oid p), rest.
      split; [reflexivity|].
      pose proof (campaign_max_supporters now oid p VNone) as Hget.
      rewrite Hcap in Hget. split; [exact Hget|].
      apply (summary_without_cap _ _ (new_document now oid p) rest
               (Campaign.goal_amount p) amounts); try assumption.
      now rewrite campaign_goal_amount.
Qed.

End SummaryAlongRoutes.

Section SummaryFailures.
Context `{!Runtime}.

Lemma mapM_raise {A B} (f : A -> result B) l1 x l2 ys e :
  Forall2 (fun a b => f a = Ok b) l1 ys ->
  f x = Raise e ->
  mapM f (l1 ++ x :: l2) = Raise e.
Proof.
  intros Hall Hx. induction Hall as [|a b l1 ys Hab _ IH]; simpl.
  - now rewrite Hx.
  - now rewrite Hab, IH.
Qed.

(** X15. The default of [0] stands in for an amount that is missing,
    not for one that is there and is [None]: a contribution document
    whose [amount] is [None] makes the summary raise a [TypeError], once
    the campaign and the contributions before it were read. *)
Theorem null_amount_breaks_summary nm d g m l1 x l2 a1 :
  campaign_reads d g m ->
  collection "contribution" d = l1 ++ x :: l2 ->
  Forall2 amount_is l1 a1 ->
  x !! "amount" = Some VNone ->
  get_summary (Up nm d) = Raise TypeError.
Proof.
  intros Hc Hd H1 Hx. rewrite (get_summary_reads _ _ _ _ Hc), Hd.
  rewrite (mapM_raise _ l1 x l2 a1 TypeError); [reflexivity|exact H1|].
  unfold get_or. now rewrite Hx.
Qed.

(** X16. The crowdfunding handlers catch nothing: when the read of the
    campaigns raises, creating a campaign, listing the campaigns and the
    summary raise the same exception, and so does the listing of
    contributions when the read of the contributions raises; the store
    is left as it was. *)
Theorem store_failure_propagates s e :
  (get_documents "campaign" s = Raise e ->
   (forall now p, create_campaign now p s = (Raise e, s))
   /\ list_campaigns s = Raise e
   /\ get_summary s = Raise e)
  /\ (get_documents "contribution" s = Raise e ->
      forall limit, list_contributions limit s = Raise e).
Proof.
  split.
  - intros Hr. repeat split.
    + intros now p. unfold create_campaign, hbind, read. now rewrite Hr.
    + unfold list_campaigns. now rewrite Hr.
    + unfold get_summary. now rewrite Hr.
  - intros Hr limit. unfold list_contributions. now rewrite Hr.
Qed.

End SummaryFailures.

(** ** The listings along the routes *)

Section ListingsAlongRoutes.
Context `{!Runtime}.

(** X13. When the address check accepts what it answers with, the two
    listings succeed on every store the create routes lead to: the
    campaigns listed are at most one, and the contributions are listed
    for every limit, negative ones included. *)
Theorem listings_succeed_on_reachable s :
  (forall e e', validate_email e = Some e' -> is_Some (validate_email e')) ->
  reachable s ->
  (exists outs, list_campaigns s = Ok outs /\ (length outs <= 1)%nat)
  /\ (forall limit, exists outs, list_contributions limit s = Ok outs).
Proof.
  intros Hstable Hs.
  destruct (reachable_stored Hstable s Hs)
    as (nm & d & -> & Hone & Hcamp & Hcontr).
  split.
  - destruct (list_campaigns_stored nm d Hcamp)
      as (items & outs & _ & Hperm & _ & Hlist & Hall).
    exists outs. split; [exact Hlist|].
    now rewrite <- (Forall2_length _ _ _ Hall), (Permutation_length Hperm).
  - intros limit.
    destruct (list_contributions_stored nm d limit Hcontr)
      as (items & outs & _ & _ & _ & Hlist & _).
    now exists outs.
Qed.

(** Inserting into dated records moves no record past one of its own
    creation time. *)
Lemma insert_desc_keeps_ties x l r t :
  (exists u, get x "created_at" = VDate u) ->
  Forall (fun y => exists u, get y "created_at" = VDate u) l ->
  insert_desc (fun y => get y "created_at") x l = Ok r ->
  filter (fun y => created_at y = t) r
  = filter (fun y => created_at y = t) (x :: l).
Proof.
  intros [u Hu]. revert r.
  induction l as [|y l IH]; intros r Hdated; simpl.
  - now intros [= <-].
  - apply Forall_cons in Hdated as [[v Hv] Hdated].
    rewrite Hu, Hv; simpl.
    destruct (u <? v) eqn:Hlt; [|now intros [= <-]].
    destruct (insert_desc _ x l) as [r'|e] eqn:Hr'; simpl; [|discriminate].
    intros [= <-].
    rewrite !filter_cons, (IH r' Hdated eq_refl), !filter_cons.
    rewrite (created_at_dated _ _ Hu), (created_at_dated _ _ Hv).
    apply Z.ltb_lt in Hlt.
    repeat case_decide; try reflexivity; lia.
Qed.

Lemma sort_desc_keeps_ties l r t :
  Forall (fun y => exists u, get y "created_at" = VDate u) l ->
  sort_desc (fun y => get y "created_at") l = Ok r ->
  filter (fun y => created_at y = t) r
  = filter (fun y => created_at y = t) l.
Proof.
  revert r. induction l as [|x l IH]; intros r Hdated; simpl.
  - now intros [= <-].
  - apply Forall_cons in Hdated as [Hx Hdated].
    destruct (sort_desc _ l) as [r'|e] eqn:Hr'; simpl; [|discriminate].
    intros Hins.
    destruct (sort_desc_dated l Hdated) as (r'' & Hr'' & Hperm & _).
    rewrite Hr' in Hr''. injection Hr'' as <-.
    rewrite (insert_desc_keeps_ties x r' r t Hx); [|now rewrite Hperm|exact Hins].
    now rewrite !filter_cons, (IH r' Hdated eq_refl).
Qed.

(** X14. Contributions created at the same time are listed in the order
    in which the store returns them: what the listing shows is the
    stored records sorted newest first and cut by the limit, and for
    every creation time the records of that time follow each other in
    the sorted list as they do in what the store returned. *)
Theorem listing_keeps_ties_in_stored_order nm d limit :
  Forall stored_contribution (collection "contribution" d) ->
  exists items outs,
    list_contributions limit (Up nm d) = Ok outs
    /\ Forall2 (fun x o => contribution_out x = Ok o)
         (slice_to limit items) outs
    /\ items ≡ₚ collection "contribution" d
    /\ newest_first items
    /\ forall t,
         filter (fun y => created_at y = t) items
         = filter (fun y => created_at y = t)
             (collection "contribution" d).
Proof.
  intros Hstored.
  destruct (list_contributions_stored nm d limit Hstored)
    as (items & outs & Hsort & Hperm & Hsorted & Hlist & Hall).
  exists items, outs. split; [exact Hlist|]. split.
  - rewrite slice_to_take. now rewrite (Permutation_length Hperm).
  - split; [exact Hperm|]. split; [exact Hsorted|].
    intros t. apply sort_desc_keeps_ties; [|exact Hsort].
    eapply Forall_impl; [exact Hstored|].
    apply stored_contribution_dated.
Qed.

End ListingsAlongRoutes.

(** ** The further statements on the sample stores *)

Lemma reachable_after_two_campaigns : reachable store_after_two_campaigns.
Proof. apply reach_campaign, reach_campaign, reach_empty. Qed.

Lemma reachable_after_contribution : reachable store_after_contribution.
Proof. apply reach_contribution, reach_campaign, reach_empty. Qed.

Lemma sample_email_stable (e e' : string) :
  validate_email e = Some e' -> is_Some (validate_email e').
Proof.
  simpl. destruct (has_at e) eqn:He; [|discriminate].
  intros [= <-]. rewrite He. now exists e.
Qed.

(** Two requests to create a campaign leave one. *)
Lemma routes_keep_one_campaign_witness :
  exists nm d,
    store_after_two_campaigns = Up nm d
    /\ (length (collection "campaign" d) <= 1)%nat.
Proof.
  apply (routes_keep_one_campaign store_after_two_campaigns).
  apply reachable_after_two_campaigns.
Defined.

(** The contribution of 100 that the route stored. *)
Lemma routes_store_valid_records_witness :
  exists nm d,
    store_after_contribution = Up nm d
    /\ Forall (fun x => exists a, get x "amount" = VFloat a
                                  /\ (0 <? a)%float = true
                                  /\ is_nan a = false)
         (collection "contribution" d)
    /\ Forall (fun c => (exists g, get c "goal_amount" = VFloat g
                                   /\ (0 <? g)%float = true)
                        /\ (get c "max_supporters" = VNone
                            \/ exists m, get c "max_supporters" = VInt m
                                         /\ 0 < m))
         (collection "campaign" d).
Proof.
  apply (routes_store_valid_records store_after_contribution).
  apply reachable_after_contribution.
Defined.

(** The sample campaign, created on the empty store and listed. *)
Lemma created_campaign_is_listed_witness :
  exists id s',
    create_campaign 5 sample_campaign empty_store = (Ok id, s')
    /\ list_campaigns s'
       = Ok [ {| CampaignOut.id := id;
                 CampaignOut.title := "Well";
                 CampaignOut.description := "A well for the village";
                 CampaignOut.goal_amount := 1000%float;
                 CampaignOut.max_supporters := Some 10;
                 CampaignOut.deadline := None;
                 CampaignOut.created_at := 5 |} ].
Proof.
  apply (created_campaign_is_listed 5 sample_campaign (Some "crowdfund")
           empty_db).
  apply collection_empty.
Defined.

(** A contribution of 150, created after the campaign and listed. *)
Lemma created_contribution_is_listed_witness :
  exists id s' outs,
    post_contributions 7 (sample_contribution_body 150) (Up None db_campaign)
    = (Ok id, s')
    /\ list_contributions 200 s' = Ok outs
    /\ length outs = 1%nat
    /\ {| ContributionOut.id := id;
          ContributionOut.name := "Ada";
          ContributionOut.email := "ada@example.org";
          ContributionOut.amount := 150%float;
          ContributionOut.message := None;
          ContributionOut.is_public := true;
          ContributionOut.created_at := 7 |} ∈ outs.
Proof.
  destruct (created_contribution_is_listed 7 (sample_contribution_body 150)
              (sample_contribution 150) "ada@example.org" None db_campaign
              200)
    as (id & s' & outs & Hpost & Hlist & Hlen & Hin).
  - reflexivity.
  - reflexivity.
  - rewrite contributions_db_campaign. constructor.
  - rewrite contributions_db_campaign. simpl. lia.
  - exists id, s', outs. rewrite contributions_db_campaign in Hlen.
    now repeat split.
Defined.

(** The first contribution to the sample campaign. *)
Lemma contribution_moves_summary_witness :
  exists id s' r r',
    post_contributions 7 (sample_contribution_body 150) (Up None db_campaign)
    = (Ok id, s')
    /\ get_summary (Up None db_campaign) = Ok r
    /\ get_summary s' = Ok r'
    /\ backers r' = backers r + 1
    /\ raised r' = VFloat 150
    /\ remaining_supporters r = VInt 10
    /\ remaining_supporters r' = VInt 9.
Proof.
  destruct (contribution_moves_summary 7 (sample_contribution_body 150)
              (sample_contribution 150) None db_campaign 1000%float 10 [])
    as (id & s' & r & r' & k & Hpost & Hr & Hr' & _ & Hb & Hraised
        & Hrem & Hrem').
  - reflexivity.
  - unfold campaign_reads. rewrite campaigns_db_campaign.
    now rewrite campaign_goal_amount, campaign_max_supporters.
  - rewrite contributions_db_campaign. constructor.
  - exists id, s', r, r'.
    assert (Hk : k = 10).
    { assert (Hs : get_summary (Up None db_campaign)
                   = Ok (summary_of 1000 10 0 [])).
      { change 0%nat with (length (@nil document)).
        rewrite <- contributions_db_campaign at 1.
        apply get_summary_of; [|rewrite contributions_db_campaign; constructor].
        unfold campaign_reads. rewrite campaigns_db_campaign.
        now rewrite campaign_goal_amount, campaign_max_supporters. }
      rewrite Hs in Hr. injection Hr as <-. simpl in Hrem.
      now injection Hrem as <-. }
    subst k. rewrite Hrem', Hrem, Hraised.
    repeat split; try assumption; reflexivity.
Defined.

(** The campaign without a cap, created on the empty store. *)
Lemma uncapped_campaign_breaks_summary_witness :
  exists id s',
    post_campaigns 5 uncapped_campaign_body empty_store = (Ok id, s')
    /\ get_summary s' = Raise TypeError.
Proof.
  apply (uncapped_campaign_breaks_summary 5 uncapped_campaign_body
           uncapped_campaign (Some "crowdfund") empty_db []).
  - reflexivity.
  - reflexivity.
  - apply collection_empty.
  - rewrite collection_empty. constructor.
Defined.

(** The summary after a campaign and a contribution. *)
Lemma summary_on_reachable_witness :
  exists nm d,
    store_after_contribution = Up nm d
    /\ ((exists c rest,
           collection "campaign" d = c :: rest
           /\ get c "max_supporters" = VNone
           /\ get_summary store_after_contribution = Raise TypeError)
        \/ (exists r q k,
              get_summary store_after_contribution = Ok r
              /\ (0 <? goal r)%float = true
              /\ percent r = VFloat q
              /\ backers r = Z.of_nat (length (collection "contribution" d))
              /\ remaining_supporters r = VInt k
              /\ 0 <= k)).
Proof.
  apply (summary_on_reachable store_after_contribution).
  apply reachable_after_contribution.
Defined.

(** The listings after a campaign and a contribution. *)
Lemma listings_succeed_on_reachable_witness :
  (exists outs,
     list_campaigns store_after_contribution = Ok outs
     /\ (length outs <= 1)%nat)
  /\ (forall limit, exists outs,
        list_contributions limit store_after_contribution = Ok outs).
Proof.
  apply (listings_succeed_on_reachable store_after_contribution).
  - apply sample_email_stable.
  - apply reachable_after_contribution.
Defined.

(** Of two contributions made at the time 6, the one stored first is
    listed first. *)
Lemma listing_keeps_ties_in_stored_order_witness :
  exists items outs,
    list_contributions 200 (Up None db_ties) = Ok outs
    /\ Forall2 (fun x o => contribution_out x = Ok o)
         (slice_to 200 items) outs
    /\ ContributionOut.amount <$> outs = [20%float; 10%float; 30%float]
    /\ filter (fun y => created_at y = 6) items
       = filter (fun y => created_at y = 6) (collection "contribution" db_ties).
Proof.
  destruct (listing_keeps_ties_in_stored_order None db_ties 200)
    as (items & outs & Hlist & Hall & _ & _ & Hties).
  - unfold db_ties. rewrite !collection_insert_one, collection_empty.
    repeat (constructor; [apply stored_sample_contribution|]). constructor.
  - exists items, outs. split; [exact Hlist|]. split; [exact Hall|].
    split; [|apply Hties].
    vm_compute in Hlist. injection Hlist as <-. reflexivity.
Defined.

(** A contribution of 100 followed by one whose amount is [None]. *)
Lemma null_amount_breaks_summary_witness :
  get_summary (Up None db_nulled) = Raise TypeError.
Proof.
  apply (null_amount_breaks_summary None db_nulled 1000%float 10
           [new_document 6 1%N (sample_contribution 100)] nulled []
           [100%float]).
  - unfold campaign_reads, db_nulled.
    rewrite !collection_insert_one_ne by done.
    rewrite campaigns_db_campaign.
    now rewrite campaign_goal_amount, campaign_max_supporters.
  - unfold db_nulled.
    now rewrite !collection_insert_one, contributions_db_campaign.
  - constructor; [|constructor].
    exact (amount_is_new_document 6 1 (sample_contribution 100)).
  - unfold nulled. apply lookup_insert_eq.
Defined.

(** A server that does not answer. *)
Lemma store_failure_propagates_witness :
  create_campaign 5 sample_campaign (Down None "timed out")
  = (Raise (StoreError "timed out"), Down None "timed out")
  /\ list_campaigns (Down None "timed out") = Raise (StoreError "timed out")
  /\ get_summary (Down None "timed out") = Raise (StoreError "timed out")
  /\ list_contributions 200 (Down None "timed out")
     = Raise (StoreError "timed out").
Proof.
  destruct (store_failure_propagates (Down None "timed out")
              (StoreError "timed out")) as [Hcamp Hcontr].
  destruct (Hcamp eq_refl) as (Hcreate & Hlist & Hsum).
  split; [apply Hcreate|]. split; [exact Hlist|]. split; [exact Hsum|].
  apply (Hcontr eq_refl).
Defined.
